(** * NGO controller of the blood-donation platform

    A shallow embedding of
    [Backend/src/controllers/users/ngo.controller.js]: the request
    handlers [registerNGO], [loginNGO], [logoutNGO], [changePassword],
    [getNGOProfile], [updateNGOProfile], [manageFacility] and
    [resendVerificationOtp] with
    their helpers [generateTokens] and [notifyNearbyDonors].

    JavaScript objects are finite maps from property names to values, the
    collections of the document store are lists of such objects, and a
    handler is a function from the state of the world to an outcome (a
    response or a raised error) and a new state.  A raised error keeps
    the state reached so far: nothing in the controller opens a
    transaction.  A JavaScript string is the list of its UTF-16 code
    units; the string literals of this file are ASCII and stand for the
    code units of their characters. *)

From stdpp Require Import gmap strings list fin_maps sorting.
From Stdlib Require Import ZArith NArith Ascii.

#[local] Set Warnings "-register-all".
#[local] Open Scope Z_scope.

(** ** JavaScript values *)

(** A string as JavaScript has it: the sequence of its UTF-16 code
    units, so that [length] is the [length] of the language and every
    character of the Basic Multilingual Plane is one unit. *)
Definition jstring : Type := list N.

Definition text_of (s : string) : jstring :=
  List.map N_of_ascii (String.list_ascii_of_string s).

Coercion text_of : string >-> jstring.

Fixpoint text_eqb (a b : jstring) : bool :=
  match a, b with
  | [], [] => true
  | x :: a', y :: b' => (x =? y)%N && text_eqb a' b'
  | _, _ => false
  end.

(** Numbers are restricted to integers; [VId] is a store identifier
    (an ObjectId) and [VDate] a timestamp. *)
Inductive value : Type :=
  | VUndef
  | VNull
  | VBool (b : bool)
  | VNum (n : Z)
  | VStr (s : jstring)
  | VId (i : nat)
  | VDate (t : Z)
  | VArr (l : list value)
  | VObj (o : gmap string value).

Abbreviation obj := (gmap string value).

(** [o.k] on an object: a missing property reads as [undefined]. *)
Definition get (o : obj) (k : string) : value := default VUndef (o !! k).

(** [v?.k] for the property names this module reads that way ([name],
    [phone], [startDate]): none of them is an own property of a
    primitive or of an array, so only objects answer. *)
Definition opt_prop (v : value) (k : string) : value :=
  match v with
  | VObj o => get o k
  | _ => VUndef
  end.

(** ToBoolean. *)
Definition truthy (v : value) : bool :=
  match v with
  | VUndef | VNull => false
  | VBool b => b
  | VNum n => negb (n =? 0)
  | VStr s => negb (text_eqb s [])
  | VId _ | VDate _ | VArr _ | VObj _ => true
  end.

(** [a === b] between a value and a primitive, also used for the
    equality conditions of the store's filters.  Two objects or arrays
    are equal only when they are the same reference, which never happens
    between a request and a stored document, so they compare unequal. *)
Definition strict_eq (a b : value) : bool :=
  match a, b with
  | VUndef, VUndef | VNull, VNull => true
  | VBool x, VBool y => Bool.eqb x y
  | VNum x, VNum y => x =? y
  | VStr x, VStr y => text_eqb x y
  | VId x, VId y => Nat.eqb x y
  | VDate x, VDate y => x =? y
  | _, _ => false
  end.

(** The code units that [String.prototype.trim] removes: the WhiteSpace
    and LineTerminator productions of the language (TAB, LF, VT, FF, CR,
    SP, NBSP, the space separators U+1680, U+2000-200A, U+202F, U+205F
    and U+3000, the separators U+2028 and U+2029, and U+FEFF). *)
Definition is_ws (c : N) : bool :=
  ((9 <=? c) && (c <=? 13)
   || (c =? 32) || (c =? 160) || (c =? 5760)
   || (8192 <=? c) && (c <=? 8202)
   || (c =? 8232) || (c =? 8233) || (c =? 8239) || (c =? 8287)
   || (c =? 12288) || (c =? 65279))%N.

Fixpoint trim_start (s : jstring) : jstring :=
  match s with
  | [] => []
  | c :: s' => if is_ws c then trim_start s' else s
  end.

Definition trim (s : jstring) : jstring :=
  List.rev (trim_start (List.rev (trim_start s))).

(** Errors a handler can raise. *)
Inductive js_error : Type :=
  | ApiError (statusCode : Z) (message : string)
  | TypeError (message : string)
  | ReferenceError (message : string)
  | ServiceError (message : string)
  | StoreError (message : string).

(** [expr?.trim()]: [undefined] on a nullish receiver, the trimmed text
    on a string, and a TypeError on anything else (no [trim] method). *)
Definition opt_trim (expr : string) (v : value) : js_error + value :=
  match v with
  | VUndef | VNull => inr VUndef
  | VStr s => inr (VStr (trim s))
  | _ => inl (TypeError (expr +:+ "?.trim is not a function"))
  end.

(** [v.length < n], read where [v] is known to be a string. *)
Definition length_lt (v : value) (n : Z) : bool :=
  match v with
  | VStr s => Z.of_nat (length s) <? n
  | VArr l => Z.of_nat (length l) <? n
  | _ => false
  end.

(** Interpolation [`${v}`].  The values this module interpolates where
    a response is built are strings; the rendering of numbers, arrays
    and objects is left out. *)
Definition interpolate (v : value) : jstring :=
  match v with
  | VStr s => s
  | VUndef => text_of "undefined"
  | VNull => text_of "null"
  | VBool true => text_of "true"
  | VBool false => text_of "false"
  | _ => []
  end.

(** ** Collaborators *)

(** Methods of an NGO document, defined by the NGO model.
    Modelled from the spec: the model keeps a password hash
    ("password hash", section 3; the hashing itself is delegated to the
    model layer): [hashPassword] is what its save hook stores for a
    password that has been assigned. *)
Class NgoModel : Type := {
  comparePassword : obj -> value -> bool;
  generateAccessToken : obj -> string;
  generateRefreshToken : obj -> string;
  hashPassword : value -> value;
}.

(** The notification service: each method resolves ([None]) or rejects
    with an error. *)
Class NotificationService : Type := {
  sendBulkNotifications : list obj -> string -> obj -> option js_error;
  sendNotification : value -> jstring -> jstring -> option js_error;
}.

(** The file storage: a stored reference, or an error. *)
Class FileStorage : Type := {
  uploadFile : value -> string -> js_error + value;
}.

(** The geographic index of the store: [distance p g] is the distance
    in metres from the point [p] to the geometry [g], on an integer
    scale, or [None] when [p] is not a point. *)
Class GeoIndex : Type := {
  distance : value -> value -> option Z;
}.

(** ** The world: document store, file storage, clock and outbox *)

(** A call received by the notification service. *)
Inductive dispatch : Type :=
  | Bulk (recipients : list obj) (template : string) (payload : obj)
  | Single (recipient : value) (subject : jstring) (text : jstring).

(** A file kept by the file storage. *)
Record upload : Type := {
  upload_file : value;
  upload_folder : string;
  upload_reference : value;
}.

(** Modelled from the spec: the persistence store behind the models
    [NGO], [Facility], [User] and [Activity], whose files are not in the
    repository slice ("create/find/update/delete by id or filter").  A
    collection is the list of its documents in insertion order.  A
    created document keeps the [_id] it is handed and gets one from the
    store when it has none; the [_id] of a stored record cannot be
    reassigned.  Every query answers a document of its own: two loads of
    one record do not share their fields.  The schemas of the models are
    not in the repository slice either: a document is stored with the
    properties it is handed. *)
Record world : Type := {
  ngos : list obj;
  facilities : list obj;
  users : list obj;
  activities : list obj;
  outbox : list dispatch;
  uploads : list upload;
  next_id : nat;
  clock : Z;
}.

Definition set_ngos (l : list obj) (w : world) : world :=
  {| ngos := l; facilities := facilities w; users := users w;
     activities := activities w; outbox := outbox w; uploads := uploads w;
     next_id := next_id w; clock := clock w |}.

Definition set_facilities (l : list obj) (w : world) : world :=
  {| ngos := ngos w; facilities := l; users := users w;
     activities := activities w; outbox := outbox w; uploads := uploads w;
     next_id := next_id w; clock := clock w |}.

Definition set_activities (l : list obj) (w : world) : world :=
  {| ngos := ngos w; facilities := facilities w; users := users w;
     activities := l; outbox := outbox w; uploads := uploads w;
     next_id := next_id w; clock := clock w |}.

Definition set_outbox (l : list dispatch) (w : world) : world :=
  {| ngos := ngos w; facilities := facilities w; users := users w;
     activities := activities w; outbox := l; uploads := uploads w;
     next_id := next_id w; clock := clock w |}.

Definition set_uploads (l : list upload) (w : world) : world :=
  {| ngos := ngos w; facilities := facilities w; users := users w;
     activities := activities w; outbox := outbox w; uploads := l;
     next_id := next_id w; clock := clock w |}.

Definition set_next_id (n : nat) (w : world) : world :=
  {| ngos := ngos w; facilities := facilities w; users := users w;
     activities := activities w; outbox := outbox w; uploads := uploads w;
     next_id := n; clock := clock w |}.

(** A loaded document: its fields, the slot of the collection it was
    read from, which [save] and [deleteOne] write back to, and the
    paths that have been assigned a new value since it was loaded. *)
Record document : Type := {
  slot : nat;
  fields : obj;
  assigned : list string;
}.

(** Computations of a handler: state passing with exceptions. *)
Definition M (A : Type) : Type := world -> (js_error + A) * world.

Definition ret {A} (a : A) : M A := fun w => (inr a, w).

Definition throw {A} (e : js_error) : M A := fun w => (inl e, w).

Definition bind {A B} (c : M A) (k : A -> M B) : M B :=
  fun w =>
    match c w with
    | (inl e, w') => (inl e, w')
    | (inr a, w') => k a w'
    end.

Notation "x <-- c ;; k" := (bind c (fun x => k))
  (at level 100, c at next level, right associativity).

(** [new Date()]. *)
Definition new_Date : M value := fun w => (inr (VDate (clock w)), w).

(** First document of a collection that satisfies a filter. *)
Fixpoint find_from (p : obj -> bool) (i : nat) (l : list obj) : option document :=
  match l with
  | [] => None
  | d :: l' =>
      if p d then Some {| slot := i; fields := d; assigned := [] |}
      else find_from p (S i) l'
  end.

Definition find_first (p : obj -> bool) (l : list obj) : option document :=
  find_from p 0 l.

(** Filters of the queries the controller issues. *)
Definition by_id (id : value) (d : obj) : bool := strict_eq (get d "_id") id.

Definition by_owner (ngoId : value) (d : obj) : bool :=
  strict_eq (get d "ngoId") ngoId.

Definition by_id_and_owner (id ngoId : value) (d : obj) : bool :=
  by_id id d && by_owner ngoId d.

Definition by_email (email : value) (d : obj) : bool :=
  strict_eq (get d "email") email.

Definition by_email_or_regNumber (email regNumber : value) (d : obj) : bool :=
  by_email email d || strict_eq (get d "regNumber") regNumber.

(** The [_id] of a created document: the one it is handed, or the next
    one of the store. *)
Definition with_id (next : nat) (doc : obj) : obj :=
  match doc !! "_id" with
  | None | Some VUndef => <["_id" := VId next]> doc
  | Some _ => doc
  end.

(** [Model.create(doc)]. *)
Definition Facility_create (doc : obj) : M obj := fun w =>
  let d := with_id (next_id w) doc in
  (inr d, set_next_id (S (next_id w))
            (set_facilities (facilities w ++ [d]) w)).

Definition Activity_create (doc : obj) : M obj := fun w =>
  let d := with_id (next_id w) doc in
  (inr d, set_next_id (S (next_id w))
            (set_activities (activities w ++ [d]) w)).

(** [NGO.create(doc)]: the save hook of the model stores the hash of
    the password. *)
Definition NGO_create `{NgoModel} (doc : obj) : M obj := fun w =>
  let d := with_id (next_id w)
             (<["password" := hashPassword (get doc "password")]> doc) in
  (inr d, set_next_id (S (next_id w)) (set_ngos (ngos w ++ [d]) w)).

(** [Facility.findOne({_id, ngoId})] and [Facility.find({ngoId})]. *)
Definition Facility_findOne (id ngoId : value) : M (option document) := fun w =>
  (inr (find_first (by_id_and_owner id ngoId) (facilities w)), w).

Definition Facility_find (ngoId : value) : M (list obj) := fun w =>
  (inr (List.filter (by_owner ngoId) (facilities w)), w).

(** Whether a path has been assigned on a loaded document. *)
Definition is_assigned (k : string) (d : document) : bool :=
  bool_decide (k ∈ assigned d).

(** [facility.save()]: refused when the [_id] has been reassigned. *)
Definition Facility_save (d : document) : M unit := fun w =>
  if is_assigned "_id" d
  then (inl (StoreError "_id is immutable"), w)
  else (inr tt, set_facilities (<[slot d := fields d]> (facilities w)) w).

(** [facility.deleteOne()]. *)
Definition Facility_deleteOne (d : document) : M unit := fun w =>
  (inr tt, set_facilities (delete (slot d) (facilities w)) w).

(** [NGO.findOne(...)] and [NGO.findById(id)]. *)
Definition NGO_findOne (p : obj -> bool) : M (option document) := fun w =>
  (inr (find_first p (ngos w)), w).

Definition NGO_findById (id : value) : M (option document) :=
  NGO_findOne (by_id id).

(** [ngo.save()]: the save hook of the model replaces a password that
    has been assigned by its hash. *)
Definition NGO_save `{NgoModel} (d : document) : M unit := fun w =>
  let stored :=
    if is_assigned "password" d
    then <["password" := hashPassword (get (fields d) "password")]> (fields d)
    else fields d in
  (inr tt, set_ngos (<[slot d := stored]> (ngos w)) w).

(** Assignment [doc.k = v] on a loaded document: the path counts as
    assigned when the value is not the one it had. *)
Definition assign (k : string) (v : value) (d : document) : document :=
  {| slot := slot d; fields := <[k := v]> (fields d);
     assigned := if strict_eq v (get (fields d) k)
                 then assigned d else k :: assigned d |}.

(** [uploadFile({ file, folder })]: a file that is stored stays in the
    file storage. *)
Definition uploadFile_call `{FileStorage} (file : value) (folder : string)
    : M value := fun w =>
  match uploadFile file folder with
  | inl e => (inl e, w)
  | inr reference =>
      (inr reference,
       set_uploads (uploads w ++ [{| upload_file := file;
                                     upload_folder := folder;
                                     upload_reference := reference |}]) w)
  end.

(** ** Constants of the module *)

Module NGO_STATUS.
Definition PENDING : value := VStr "PENDING".
Definition ACTIVE : value := VStr "ACTIVE".
Definition SUSPENDED : value := VStr "SUSPENDED".
Definition BLACKLISTED : value := VStr "BLACKLISTED".
End NGO_STATUS.

Module FACILITY_OPERATIONS.
Definition CREATE : value := VStr "create".
Definition UPDATE : value := VStr "update".
Definition DELETE : value := VStr "delete".
Definition SUSPEND : value := VStr "suspend".
Definition ACTIVATE : value := VStr "activate".
Definition LIST : value := VStr "LIST".
Definition all : list value :=
  [CREATE; UPDATE; DELETE; SUSPEND; ACTIVATE; LIST].
End FACILITY_OPERATIONS.

(** Modelled from the spec: the enumeration [FACILITY_TYPE] imported
    from the facility model, which is not in the repository slice
    ("type (CAMP/CENTER)"). *)
Module FACILITY_TYPE.
Definition CAMP : value := VStr "CAMP".
Definition CENTER : value := VStr "CENTER".
End FACILITY_TYPE.

(** Identifiers bound in the module: the imports of lines 1-15 and the
    top-level [const] declarations. *)
Definition module_bindings : list string :=
  [ "mongoose"; "NGO"; "Facility"; "FACILITY_TYPE"; "BloodRequest";
    "Activity"; "Notification"; "User"; "asyncHandler"; "ApiError";
    "ApiResponse"; "uploadFile"; "notificationService";
    "NGO_STATUS"; "FACILITY_OPERATIONS"; "generateTokens";
    "registerNGO"; "loginNGO"; "logoutNGO"; "changePassword";
    "getNGOProfile"; "updateNGOProfile"; "manageFacility";
    "handleBloodRequest"; "updateBloodInventory";
    "getConnectedHospitals"; "respondToConnectionRequest";
    "getNGOAnalytics"; "notifyNearbyDonors"; "resendVerificationOtp" ].

(** Evaluation of an identifier: what it is bound to, or a
    ReferenceError when the module binds nothing to that name. *)
Definition reference {A} (ident : string) (bound : A) : M A :=
  if existsb (String.eqb ident) module_bindings
  then ret bound
  else throw (ReferenceError (ident +:+ " is not defined")).

(** ** Responses *)

(** Modelled from the spec: the envelope built by the [ApiResponse]
    utility, which is not in the repository slice
    ("{statusCode, data, message, success: true}"). *)
Record ApiResponse : Type := {
  statusCode : Z;
  data : value;
  message : jstring;
  success : bool;
}.

Definition new_ApiResponse (code : Z) (d : value) (msg : jstring) : ApiResponse :=
  {| statusCode := code; data := d; message := msg; success := true |}.

(** [res.status(code).json(payload)]. *)
Record response : Type := { status : Z; json : ApiResponse }.

(** ** Requests *)

Record request : Type := {
  req_body : obj;
  req_params : obj;
  req_ngo : obj;
  req_files : option (gmap string (list value));
  req_ip : value;
  req_headers : obj;
}.

(** ** The handlers *)

Section Handlers.
Context {NM : NgoModel} {NS : NotificationService}
        {FS : FileStorage} {GI : GeoIndex}.

(** The module calls [generateOtp] and never declares or imports it:
    the handlers are written for whatever computation a binding of
    that name would stand for. *)
Variable generateOtp : M value.

(** Calls to the notification service, recorded in the outbox. *)
Definition notificationService_sendBulkNotifications
    (recipients : list obj) (template : string) (payload : obj) : M unit :=
  fun w =>
    let w' := set_outbox (outbox w ++ [Bulk recipients template payload]) w in
    match sendBulkNotifications recipients template payload with
    | None => (inr tt, w')
    | Some e => (inl e, w')
    end.

Definition notificationService_sendNotification
    (recipient : value) (subject text : jstring) : M unit :=
  fun w =>
    let w' := set_outbox (outbox w ++ [Single recipient subject text]) w in
    match sendNotification recipient subject text with
    | None => (inr tt, w')
    | Some e => (inl e, w')
    end.

(** *** generateTokens (lines 35-44) *)

Definition generateTokens (ngoId : value) : M (string * string) :=
  found <-- NGO_findById ngoId ;;
  match found with
  | None => throw (TypeError "Cannot read properties of null")
  | Some ngo =>
      let accessToken := generateAccessToken (fields ngo) in
      let refreshToken := generateRefreshToken (fields ngo) in
      today <-- new_Date ;;
      _ <-- NGO_save (assign "lastLogin" today
                        (assign "refreshToken" (VStr refreshToken) ngo)) ;;
      ret (accessToken, refreshToken)
  end.

(** *** registerNGO (lines 47-141) *)

(** The validation block, lines 61-68: the first failing check. *)
Definition registration_checks (body : obj) : option js_error :=
  match opt_trim "name" (get body "name") with
  | inl e => Some e
  | inr trimmedName =>
  if negb (truthy trimmedName)
  then Some (ApiError 400 "NGO name is required") else
  match opt_trim "email" (get body "email") with
  | inl e => Some e
  | inr trimmedEmail =>
  if negb (truthy trimmedEmail)
  then Some (ApiError 400 "Email is required") else
  match opt_trim "password" (get body "password") with
  | inl e => Some e
  | inr trimmedPassword =>
  if negb (truthy trimmedPassword) || length_lt (get body "password") 8
  then Some (ApiError 400 "Password must be at least 8 characters") else
  if negb (truthy (opt_prop (get body "contactPerson") "name"))
     || negb (truthy (opt_prop (get body "contactPerson") "phone"))
  then Some (ApiError 400 "Contact person details required") else
  match opt_trim "regNumber" (get body "regNumber") with
  | inl e => Some e
  | inr trimmedRegNumber =>
  if negb (truthy trimmedRegNumber)
  then Some (ApiError 400 "Registration number required")
  else None
  end end end end.

(** The upload loop, lines 89-96. *)
Fixpoint upload_documents (files : gmap string (list value))
    (allowedDocs : list string) (documents : obj) : M obj :=
  match allowedDocs with
  | [] => ret documents
  | docType :: rest =>
      match files !! docType with
      | Some uploaded =>
          stored <-- uploadFile_call (hd VUndef uploaded)
                       ("ngo-documents/" +:+ docType) ;;
          upload_documents files rest (<[docType := stored]> documents)
      | None => upload_documents files rest documents
      end
  end.


Definition registerNGO (req : request) : M response :=
  let body := req_body req in
  let email := get body "email" in
  let regNumber := get body "regNumber" in
  match registration_checks body with
  | Some e => throw e
  | None =>
  existingNGO <-- NGO_findOne (by_email_or_regNumber email regNumber) ;;
  match existingNGO with
  | Some existing =>
      throw (ApiError 409
               (if strict_eq (get (fields existing) "email") email
                then "Email already registered"
                else "Registration number already exists"))
  | None =>
  documents <--
    match req_files req with
    | Some files =>
        upload_documents files
          ["registrationCert"; "licenseCert"; "taxExemptionCert"] ∅
    | None => ret ∅
    end ;;
  ngo <-- NGO_create
    (<["deviceInfo" := get (req_headers req) "user-agent"]>
    (<["registrationIP" := req_ip req]>
    (<["verificationStatus" := VStr "PENDING"]>
    (<["documents" := VObj documents]>
    (<["operatingHours" := get body "operatingHours"]>
    (<["organizationType" := get body "organizationType"]>
    (<["facilities" := get body "facilities"]>
    (<["regNumber" := regNumber]>
    (<["address" := get body "address"]>
    (<["contactPerson" := get body "contactPerson"]>
    (<["password" := get body "password"]>
    (<["email" := email]>
    (<["name" := get body "name"]> ∅))))))))))))) ;;
  today <-- new_Date ;;
  _ <-- Activity_create
    (<["details" := VObj
        (<["timestamp" := today]>
        (<["registrationIP" := req_ip req]>
        (<["name" := get ngo "name"]>
        (<["ngoId" := get ngo "_id"]> ∅))))]>
    (<["performedBy" := VObj
        (<["userModel" := VStr "NGO"]>
        (<["userId" := get ngo "_id"]> ∅))]>
    (<["type" := VStr "NGO_REGISTERED"]> ∅))) ;;
  ret {| status := 201;
         json := new_ApiResponse 201
           (VObj (<["ngo" := VObj
              (<["status" := get ngo "verificationStatus"]>
              (<["email" := get ngo "email"]>
              (<["name" := get ngo "name"]>
              (<["_id" := get ngo "_id"]> ∅))))]> ∅))
           "NGO registration submitted for verification" |}
  end end.

(** *** loginNGO (lines 144-160) *)

Definition loginNGO (req : request) : M response :=
  let email := get (req_body req) "email" in
  let password := get (req_body req) "password" in
  if negb (truthy email) || negb (truthy password)
  then throw (ApiError 400 "Email and password are required") else
  found <-- NGO_findOne (by_email email) ;;
  match found with
  | None => throw (ApiError 404 "NGO not found")
  | Some ngo =>
      if negb (comparePassword (fields ngo) password)
      then throw (ApiError 401 "Invalid credentials") else
      generateTokens_ <-- reference "generateTokens" generateTokens ;;
      tokens <-- generateTokens_ (get (fields ngo) "_id") ;;
      ret {| status := 200;
             json := new_ApiResponse 200
               (VObj (<["refreshToken" := VStr tokens.2]>
                     (<["accessToken" := VStr tokens.1]>
                     (<["ngo" := VObj (fields ngo)]> ∅))))
               "Login successful" |}
  end.

(** *** notifyNearbyDonors (lines 378-403) *)

(** [$elemMatch: { type: "CAMP_ANNOUNCEMENTS", enabled: true }]. *)
Definition camp_announcements_enabled (preference : value) : bool :=
  match preference with
  | VObj p =>
      strict_eq (get p "type") (VStr "CAMP_ANNOUNCEMENTS")
      && strict_eq (get p "enabled") (VBool true)
  | _ => false
  end.

Definition elemMatch (p : value -> bool) (v : value) : bool :=
  match v with
  | VArr l => existsb p l
  | _ => false
  end.

(** The filter of the [User.find] query: within 10 km of the
    facility, active donor, opted in to camp announcements. *)
Definition nearby_donor (location : value) (user : obj) : bool :=
  match distance (opt_prop (get user "address") "location") location with
  | Some metres => metres <=? 10000
  | None => false
  end
  && strict_eq (get user "donorStatus") (VStr "Active")
  && elemMatch camp_announcements_enabled (get user "notificationPreferences").

(** The order of a [$near] query: nearest first, users at the same
    distance in the order of the store. *)
Definition distance_to (location : value) (user : obj) : Z :=
  default 0 (distance (opt_prop (get user "address") "location") location).

Fixpoint insert_nearest (location : value) (user : obj) (l : list obj)
    : list obj :=
  match l with
  | [] => [user]
  | other :: l' =>
      if distance_to location user <=? distance_to location other
      then user :: l
      else other :: insert_nearest location user l'
  end.

Definition nearest_first (location : value) (l : list obj) : list obj :=
  foldr (insert_nearest location) [] l.

(** [.select("_id email phone")]. *)
Definition select (paths : list string) (d : obj) : obj :=
  filter (fun kv => kv.1 ∈ paths) d.

Definition nearby_donors (location : value) (w : world) : list obj :=
  select ["_id"; "email"; "phone"]
    <$> nearest_first location
          (List.filter (nearby_donor location) (users w)).

Definition User_find_nearby (location : value) : M (list obj) := fun w =>
  (inr (nearby_donors location w), w).

Definition announcement (facility : obj) : obj :=
  <["location" := get facility "address"]>
  (<["startDate" := opt_prop (get facility "schedule") "startDate"]>
  (<["facilityType" := get facility "facilityType"]>
  (<["facilityName" := get facility "name"]>
  (<["facilityId" := get facility "_id"]> ∅)))).

Definition notifyNearbyDonors (facility : obj) : M unit :=
  nearbyUsers <-- User_find_nearby (get facility "location") ;;
  notificationService_sendBulkNotifications
    nearbyUsers "NEW_FACILITY_ANNOUNCEMENT" (announcement facility).

(** *** manageFacility (lines 242-318) *)

(** The record handed to [Facility.create], lines 251-263: the body
    spread first, then the properties that replace what it held. *)
Definition new_facility (body : obj) (ngoId : value) : obj :=
  <["location" := VObj
      (<["coordinates" := VArr [get body "longitude"; get body "latitude"]]>
      (<["type" := VStr "Point"]> ∅))]>
  (<["status" :=
      if strict_eq (get body "type") (VStr "CAMP")
      then VStr "PLANNED" else VStr "INACTIVE"]>
  (<["facilityType" :=
      if strict_eq (get body "type") (VStr "CAMP")
      then FACILITY_TYPE.CAMP else FACILITY_TYPE.CENTER]>
  (<["ngoId" := ngoId]> body))).

(** [Object.assign(facility, req.body)]. *)
Definition Object_assign (facility : document) (source : obj) : document :=
  {| slot := slot facility; fields := source ∪ fields facility;
     assigned :=
       omap (fun kv : string * value =>
               if strict_eq kv.2 (get (fields facility) kv.1)
               then None else Some kv.1) (map_to_list source)
       ++ assigned facility |}.

Definition manageFacility (req : request) : M response :=
  let action := get (req_params req) "action" in
  let ngoId := get (req_ngo req) "_id" in
  if negb (strict_eq (get (req_ngo req) "status") NGO_STATUS.ACTIVE)
  then throw (ApiError 403 "NGO must be active to manage facilities") else
  if strict_eq action FACILITY_OPERATIONS.CREATE then
    facility <-- Facility_create (new_facility (req_body req) ngoId) ;;
    _ <-- (if strict_eq (get facility "facilityType") FACILITY_TYPE.CAMP
           then
             notifyNearbyDonors_ <--
               reference "notifyNearbyDonors" notifyNearbyDonors ;;
             notifyNearbyDonors_ facility
           else ret tt) ;;
    ret {| status := 201;
           json := new_ApiResponse 201 (VObj facility)
                     "Facility created successfully" |}
  else
  if strict_eq action FACILITY_OPERATIONS.LIST then
    owned <-- Facility_find ngoId ;;
    ret {| status := 200;
           json := new_ApiResponse 200 (VArr (VObj <$> owned))
                     "Facilities fetched successfully" |}
  else
  found <-- Facility_findOne (get (req_params req) "facilityId") ngoId ;;
  match found with
  | None => throw (ApiError 404 "Facility not found")
  | Some facility =>
      facility' <--
        (if strict_eq action FACILITY_OPERATIONS.UPDATE then
           let updated := Object_assign facility (req_body req) in
           _ <-- Facility_save updated ;; ret updated
         else if strict_eq action FACILITY_OPERATIONS.DELETE then
           _ <-- Facility_deleteOne facility ;; ret facility
         else if strict_eq action FACILITY_OPERATIONS.SUSPEND
                 || strict_eq action FACILITY_OPERATIONS.ACTIVATE then
           let updated :=
             assign "status"
               (if strict_eq action FACILITY_OPERATIONS.SUSPEND
                then VStr "SUSPENDED" else VStr "ACTIVE") facility in
           _ <-- Facility_save updated ;; ret updated
         else throw (ApiError 400 "Invalid operation")) ;;
      ret {| status := 200;
             json := new_ApiResponse 200 (VObj (fields facility'))
                       (text_of "Facility " ++ interpolate action
                        ++ text_of "d successfully") |}
  end.

(** *** resendVerificationOtp (lines 406-423) *)

Definition resendVerificationOtp (req : request) : M response :=
  let ngoId := get (req_ngo req) "_id" in
  found <-- NGO_findById ngoId ;;
  match found with
  | None => throw (ApiError 404 "NGO not found")
  | Some ngo =>
      if negb (strict_eq (get (fields ngo) "verificationStatus")
                 NGO_STATUS.PENDING)
      then throw (ApiError 400
                    "Verification already completed or not pending") else
      generateOtp_ <-- reference "generateOtp" generateOtp ;;
      otp <-- generateOtp_ ;;
      let ngo' := assign "verificationOtp" otp ngo in
      _ <-- NGO_save ngo' ;;
      _ <-- notificationService_sendNotification
              (get (fields ngo') "email") "Verification OTP"
              (text_of "Your OTP is " ++ interpolate otp) ;;
      ret {| status := 200;
             json := new_ApiResponse 200 (VObj ∅)
                       "Verification OTP resent successfully" |}
  end.
End Handlers.

(** ** Session, password and profile handlers *)

(** Modelled from the spec: the update of a stored account by
    [findByIdAndUpdate] with [runValidators] ("update by id or filter",
    "unique-constraint enforcement").  From the accounts of the
    collection, the stored document and the update, the store makes the
    updated document or refuses the update; what it makes of dotted
    paths and which updates its validators and unique indexes refuse is
    left to the store. *)
Class UpdateSemantics : Type := {
  applyUpdate : list obj -> obj -> obj -> js_error + obj;
}.

(** No two documents of a collection agree on the property [k]. *)
Definition distinct_on (k : string) (l : list obj) : Prop :=
  forall (i j : nat) (d1 d2 : obj),
    l !! i = Some d1 -> l !! j = Some d2 ->
    strict_eq (get d1 k) (get d2 k) = true -> i = j.

Section ProfileHandlers.
Context {NM : NgoModel} {FS : FileStorage} {US : UpdateSemantics}.

(** *** logoutNGO (lines 163-172) *)

Definition logoutNGO (req : request) : M response :=
  let ngoId := get (req_ngo req) "_id" in
  found <-- NGO_findById ngoId ;;
  match found with
  | None => throw (ApiError 404 "NGO not found")
  | Some ngo =>
      _ <-- NGO_save (assign "refreshToken" VNull ngo) ;;
      ret {| status := 200;
             json := new_ApiResponse 200 (VObj ∅) "Logout successful" |}
  end.

(** *** changePassword (lines 175-194) *)

Definition changePassword (req : request) : M response :=
  let oldPassword := get (req_body req) "oldPassword" in
  let newPassword := get (req_body req) "newPassword" in
  let ngoId := get (req_ngo req) "_id" in
  if negb (truthy oldPassword) || negb (truthy newPassword)
  then throw (ApiError 400 "Old and new passwords are required") else
  found <-- NGO_findById ngoId ;;
  match found with
  | None => throw (ApiError 404 "NGO not found")
  | Some ngo =>
      if negb (comparePassword (fields ngo) oldPassword)
      then throw (ApiError 401 "Old password is incorrect") else
      _ <-- NGO_save (assign "password" newPassword ngo) ;;
      ret {| status := 200;
             json := new_ApiResponse 200 (VObj ∅)
                       "Password updated successfully" |}
  end.

(** *** getNGOProfile (lines 197-205) *)

(** [.select("-password -refreshToken")]. *)
Definition deselect (paths : list string) (d : obj) : obj :=
  filter (fun kv => kv.1 ∉ paths) d.

Definition getNGOProfile (req : request) : M response :=
  found <-- NGO_findById (get (req_ngo req) "_id") ;;
  match found with
  | None => throw (ApiError 404 "NGO not found")
  | Some ngo =>
      ret {| status := 200;
             json := new_ApiResponse 200
                       (VObj (deselect ["password"; "refreshToken"] (fields ngo)))
                       "NGO profile fetched successfully" |}
  end.

(** *** updateNGOProfile (lines 208-239) *)

(** The upload loop, lines 220-227. *)
Fixpoint upload_profile_documents (files : gmap string (list value))
    (allowedDocs : list string) (updateFields : obj) : M obj :=
  match allowedDocs with
  | [] => ret updateFields
  | docType :: rest =>
      match files !! docType with
      | Some uploaded =>
          stored <-- uploadFile_call (hd VUndef uploaded)
                       ("ngo-documents/" +:+ docType) ;;
          upload_profile_documents files rest
            (<["documents." +:+ docType := stored]> updateFields)
      | None => upload_profile_documents files rest updateFields
      end
  end.

(** The file that the loop leaves in the file storage for a name. *)
Definition kept_upload (files : gmap string (list value)) (k : string)
    : option upload :=
  match files !! k with
  | Some uploaded =>
      match uploadFile (hd VUndef uploaded) ("ngo-documents/" +:+ k) with
      | inr reference =>
          Some {| upload_file := hd VUndef uploaded;
                  upload_folder := "ngo-documents/" +:+ k;
                  upload_reference := reference |}
      | inl _ => None
      end
  | None => None
  end.

(** [NGO.findByIdAndUpdate(id, update, { new: true, runValidators:
    true })]: [null] when no account has the id; an update that the
    store refuses writes nothing. *)
Definition NGO_findByIdAndUpdate (id : value) (update : obj)
    : M (option obj) := fun w =>
  match find_first (by_id id) (ngos w) with
  | None => (inr None, w)
  | Some ngo =>
      match applyUpdate (ngos w) (fields ngo) update with
      | inl e => (inl e, w)
      | inr updated =>
          (inr (Some updated), set_ngos (<[slot ngo := updated]> (ngos w)) w)
      end
  end.

Definition updateNGOProfile (req : request) : M response :=
  let ngoId := get (req_ngo req) "_id" in
  updateFields <--
    match req_files req with
    | Some files =>
        upload_profile_documents files
          ["registrationCert"; "licenseCert"; "taxExemptionCert"; "logo"]
          (req_body req)
    | None => ret (req_body req)
    end ;;
  found <-- NGO_findByIdAndUpdate ngoId updateFields ;;
  match found with
  | None => throw (ApiError 404 "NGO not found")
  | Some ngo =>
      ret {| status := 200;
             json := new_ApiResponse 200 (VObj ngo)
                       "NGO profile updated successfully" |}
  end.
End ProfileHandlers.


(** ** Sample collaborators, store and requests *)

Module Sample.
(** A model whose hash of a password is the password itself. *)
Definition plain_model : NgoModel :=
  {| comparePassword doc candidate := strict_eq (get doc "password") candidate;
     generateAccessToken _ := "access-1";
     generateRefreshToken _ := "refresh-1";
     hashPassword password := password |}.


Definition reliable_service : NotificationService :=
  {| sendBulkNotifications _ _ _ := None;
     sendNotification _ _ _ := None |}.

Definition failing_service : NotificationService :=
  {| sendBulkNotifications _ _ _ := Some (ServiceError "gateway down");
     sendNotification _ _ _ := Some (ServiceError "gateway down") |}.

Definition folder_storage : FileStorage :=
  {| uploadFile _ folder := inr (VStr folder) |}.


(** Every point is at the geometry. *)
Definition flat_geo : GeoIndex := {| distance _ _ := Some 0 |}.

(** Points on a line: the distance is the difference of the first
    coordinates. *)
Definition line_geo : GeoIndex :=
  {| distance point geometry :=
       match opt_prop point "coordinates", opt_prop geometry "coordinates" with
       | VArr (VNum x :: _), VArr (VNum y :: _) => Some (Z.abs (x - y))
       | _, _ => None
       end |}.

(** A store that merges an update into the stored document and refuses
    an email that another account has. *)
Definition unique_store : UpdateSemantics :=
  {| applyUpdate accounts doc update :=
       if existsb
            (fun other =>
               negb (strict_eq (get other "_id") (get doc "_id"))
               && strict_eq (get other "email") (get (update ∪ doc) "email"))
            accounts
       then inl (StoreError "duplicate key: email")
       else inr (update ∪ doc) |}.

Definition otp_source : M value := ret (VStr "482913").

Definition helping_hands : obj :=
  <["_id" := VId 1]> (<["name" := VStr "Helping Hands"]>
  (<["email" := VStr "a@b.org"]> (<["password" := VStr "longenough1"]>
  (<["regNumber" := VStr "R-1"]> (<["refreshToken" := VStr "refresh-0"]>
  (<["verificationStatus" := VStr "ACTIVE"]> ∅)))))).

Definition new_hope : obj :=
  <["_id" := VId 2]> (<["name" := VStr "New Hope"]>
  (<["email" := VStr "n@h.org"]> (<["password" := VStr "s3cretpass"]>
  (<["regNumber" := VStr "R-2"]>
  (<["verificationStatus" := VStr "PENDING"]> ∅))))).

(** A center owned by NGO 2. *)
Definition city_center : obj :=
  <["_id" := VId 5]> (<["ngoId" := VId 2]> (<["name" := VStr "City Center"]>
  (<["facilityType" := VStr "CENTER"]> (<["status" := VStr "ACTIVE"]> ∅)))).

Definition donor : obj :=
  <["_id" := VId 7]> (<["email" := VStr "d@x.org"]> (<["phone" := VStr "555"]>
  (<["donorStatus" := VStr "Active"]>
  (<["address" := VObj (<["location" := VObj (<["type" := VStr "Point"]> ∅)]> ∅)]>
  (<["notificationPreferences" := VArr
      [VObj (<["type" := VStr "CAMP_ANNOUNCEMENTS"]>
            (<["enabled" := VBool true]> ∅))]]> ∅))))).

Definition w0 : world :=
  {| ngos := [helping_hands; new_hope]; facilities := [city_center];
     users := [donor]; activities := []; outbox := []; uploads := [];
     next_id := 10; clock := 1000 |}.

Definition request_of (ngo params body : obj) : request :=
  {| req_body := body; req_params := params; req_ngo := ngo;
     req_files := None; req_ip := VStr "10.0.0.1"; req_headers := ∅ |}.

Definition active_ngo : obj :=
  <["_id" := VId 1]> (<["status" := VStr "ACTIVE"]> ∅).

Definition pending_ngo : obj :=
  <["_id" := VId 2]> (<["status" := VStr "PENDING"]> ∅).

(** The owner of the sample center, active. *)
Definition owner_ngo : obj :=
  <["_id" := VId 2]> (<["status" := VStr "ACTIVE"]> ∅).

(** A camp whose body also carries a facilityType and a status. *)
Definition camp_request : request :=
  request_of active_ngo (<["action" := VStr "create"]> ∅)
    (<["type" := VStr "CAMP"]> (<["name" := VStr "Spring Camp"]>
    (<["facilityType" := VStr "CENTER"]> (<["status" := VStr "ACTIVE"]>
    (<["longitude" := VNum 77]> (<["latitude" := VNum 28]> ∅)))))).

Definition center_request : request :=
  request_of active_ngo (<["action" := VStr "create"]> ∅)
    (<["type" := VStr "HOSPITAL"]> (<["name" := VStr "Depot"]> ∅)).

Definition pending_create_request : request :=
  request_of pending_ngo (<["action" := VStr "create"]> ∅)
    (<["type" := VStr "CAMP"]> ∅).

(** NGO 1 addresses the center of NGO 2. *)
Definition foreign_update_request : request :=
  request_of active_ngo
    (<["action" := VStr "update"]> (<["facilityId" := VId 5]> ∅))
    (<["name" := VStr "Mine now"]> ∅).

(** The same, by an NGO that is not active, on an id that is unknown. *)
Definition pending_update_request : request :=
  request_of pending_ngo
    (<["action" := VStr "update"]> (<["facilityId" := VId 99]> ∅))
    (<["name" := VStr "Mine now"]> ∅).

(** An operation name outside the table, on an unknown facility. *)
Definition archive_request : request :=
  request_of active_ngo
    (<["action" := VStr "archive"]> (<["facilityId" := VId 99]> ∅)) ∅.

Definition registration (email regNumber password : string) : request :=
  request_of ∅ ∅
    (<["name" := VStr "Second Chance"]> (<["email" := VStr email]>
    (<["password" := VStr password]> (<["regNumber" := VStr regNumber]>
    (<["contactPerson" := VObj (<["name" := VStr "X"]>
                               (<["phone" := VStr "123"]> ∅))]> ∅))))).

Definition login_request : request :=
  request_of ∅ ∅
    (<["email" := VStr "a@b.org"]> (<["password" := VStr "longenough1"]> ∅)).

Definition resend_request (ngo : obj) : request := request_of ngo ∅ ∅.

(** The registration example of the specification, on an empty store. *)
Definition empty_world : world :=
  {| ngos := []; facilities := []; users := []; activities := [];
     outbox := []; uploads := []; next_id := 1; clock := 0 |}.

Definition example_registration : request :=
  request_of ∅ ∅
    (<["name" := VStr "Helping Hands"]> (<["email" := VStr "a@b.org"]>
    (<["password" := VStr "longenough1"]> (<["regNumber" := VStr "R-1"]>
    (<["contactPerson" := VObj (<["name" := VStr "X"]>
                               (<["phone" := VStr "123"]> ∅))]> ∅))))).
Definition logout_request : request := request_of active_ngo ∅ ∅.

Definition change_password_request (old new : string) : request :=
  request_of active_ngo ∅
    (<["oldPassword" := VStr old]> (<["newPassword" := VStr new]> ∅)).

Definition delete_request : request :=
  request_of owner_ngo
    (<["action" := VStr "delete"]> (<["facilityId" := VId 5]> ∅)) ∅.


Definition suspend_request : request :=
  request_of owner_ngo
    (<["action" := VStr "suspend"]> (<["facilityId" := VId 5]> ∅)) ∅.

Definition activate_request : request :=
  request_of owner_ngo
    (<["action" := VStr "activate"]> (<["facilityId" := VId 5]> ∅)) ∅.

Definition list_request : request :=
  request_of owner_ngo (<["action" := VStr "LIST"]> ∅) ∅.

Definition upload_request : request :=
  {| req_body := req_body example_registration; req_params := ∅;
     req_ngo := ∅;
     req_files := Some (<["licenseCert" := [VStr "file-1"]]>
                       (<["passport" := [VStr "file-2"]]> ∅));
     req_ip := VStr "10.0.0.1"; req_headers := ∅ |}.

Definition wrong_login_request : request :=
  request_of ∅ ∅
    (<["email" := VStr "a@b.org"]> (<["password" := VStr "guess"]> ∅)).

(** A session whose account is not in the store. *)
Definition ghost_request : request :=
  request_of (<["_id" := VId 42]> ∅) ∅
    (<["oldPassword" := VStr "longenough1"]>
    (<["newPassword" := VStr "newpassword1"]> ∅)).

(** A town on a line: donors at 100 m, 300 m and 20 km of the origin,
    one donor that is not active and one that has not opted in. *)
Definition donor_at (id : nat) (x : Z) (donorStatus : string)
    (enabled : bool) : obj :=
  <["_id" := VId id]> (<["email" := VStr "d@x.org"]> (<["phone" := VStr "555"]>
  (<["donorStatus" := VStr donorStatus]>
  (<["address" := VObj (<["location" := VObj
      (<["type" := VStr "Point"]>
      (<["coordinates" := VArr [VNum x; VNum 0]]> ∅))]> ∅)]>
  (<["notificationPreferences" := VArr
      [VObj (<["type" := VStr "CAMP_ANNOUNCEMENTS"]>
            (<["enabled" := VBool enabled]> ∅))]]> ∅))))).

Definition town : world :=
  {| ngos := [helping_hands; new_hope]; facilities := [city_center];
     users := [donor_at 21 300 "Active" true; donor_at 22 20000 "Active" true;
               donor_at 23 50 "Inactive" true; donor_at 24 60 "Active" false;
               donor_at 25 100 "Active" true];
     activities := []; outbox := []; uploads := [];
     next_id := 30; clock := 1000 |}.

Definition origin_camp_request : request :=
  request_of active_ngo (<["action" := VStr "create"]> ∅)
    (<["type" := VStr "CAMP"]> (<["name" := VStr "Spring Camp"]>
    (<["longitude" := VNum 0]> (<["latitude" := VNum 0]> ∅)))).

(** A store with facilities of two owners. *)
Definition depot : obj :=
  <["_id" := VId 6]> (<["ngoId" := VId 1]> (<["name" := VStr "Depot"]>
  (<["facilityType" := VStr "CENTER"]> (<["status" := VStr "INACTIVE"]> ∅)))).

Definition north_camp : obj :=
  <["_id" := VId 7]> (<["ngoId" := VId 2]> (<["name" := VStr "North Camp"]>
  (<["facilityType" := VStr "CAMP"]> (<["status" := VStr "PLANNED"]> ∅)))).

Definition two_owners : world :=
  {| ngos := [helping_hands; new_hope];
     facilities := [city_center; depot; north_camp];
     users := []; activities := []; outbox := []; uploads := [];
     next_id := 10; clock := 1000 |}.





(** A session whose account is not in the store sends a licence
    certificate, a logo and a file under a name that is not allowed. *)
Definition ghost_files_request : request :=
  {| req_body := <["name" := VStr "Nobody"]> ∅;
     req_params := ∅; req_ngo := <["_id" := VId 42]> ∅;
     req_files := Some (<["licenseCert" := [VStr "file-1"]]>
                       (<["logo" := [VStr "file-3"]]>
                       (<["passport" := [VStr "file-2"]]> ∅)));
     req_ip := VStr "10.0.0.1"; req_headers := ∅ |}.
End Sample.

(** ** Properties *)

(** *** Values and store queries *)

Lemma text_eqb_eq (a b : jstring) : text_eqb a b = true ↔ a = b.
Proof.
  revert b. induction a as [|x a IH]; intros [|y b]; simpl; try done.
  rewrite andb_true_iff, N.eqb_eq, IH. split; [by intros [-> ->]|].
  by intros [= -> ->].
Qed.

Lemma text_eqb_refl (a : jstring) : text_eqb a a = true.
Proof. by apply text_eqb_eq. Qed.

Lemma strict_eq_str (v : value) (s : jstring) :
  strict_eq v (VStr s) = true ↔ v = VStr s.
Proof.
  destruct v; simpl; try (split; discriminate).
  rewrite text_eqb_eq. split; congruence.
Qed.

Lemma strict_eq_str_false (v : value) (s : jstring) :
  v ≠ VStr s → strict_eq v (VStr s) = false.
Proof.
  intros Hne. destruct (strict_eq v (VStr s)) eqn:E; [|done].
  apply strict_eq_str in E. contradiction.
Qed.

Lemma get_insert_eq (o : obj) (k : string) (v : value) :
  get (<[k := v]> o) k = v.
Proof. unfold get. by rewrite lookup_insert_eq. Qed.

Lemma get_insert_ne (o : obj) (k k' : string) (v : value) :
  k ≠ k' → get (<[k := v]> o) k' = get o k'.
Proof. intros Hne. unfold get. by rewrite lookup_insert_ne. Qed.

Lemma find_from_none (p : obj → bool) (l : list obj) (i : nat) :
  (∀ d, d ∈ l → p d = false) → find_from p i l = None.
Proof.
  revert i. induction l as [|d l IH]; intros i Hall; [done|].
  simpl. rewrite (Hall d) by left.
  apply IH. intros d' Hd'. apply Hall. by right.
Qed.

Lemma find_from_some (p : obj → bool) (l : list obj) (i : nat) (d : obj) :
  d ∈ l → p d = true →
  ∃ doc, find_from p i l = Some doc ∧ p (fields doc) = true.
Proof.
  revert i. induction l as [|d' l IH]; intros i Hin Hp.
  - by apply elem_of_nil in Hin.
  - simpl. destruct (p d') eqn:E.
    + by eexists.
    + apply elem_of_cons in Hin as [->|Hin]; [congruence|].
      by apply IH.
Qed.

Lemma find_from_lookup (p : obj → bool) (l : list obj) (i : nat) (doc : document) :
  find_from p i l = Some doc →
  (i ≤ slot doc)%nat ∧ l !! (slot doc - i)%nat = Some (fields doc)
  ∧ p (fields doc) = true.
Proof.
  revert i. induction l as [|d l IH]; intros i Hfind; [done|].
  simpl in Hfind. destruct (p d) eqn:E.
  - injection Hfind as <-. simpl. rewrite Nat.sub_diag. by repeat split.
  - apply IH in Hfind as (Hle & Hlook & Hp).
    repeat split; [lia| |done].
    replace (slot doc - i)%nat with (S (slot doc - S i)) by lia. done.
Qed.

Lemma find_from_assigned
    (p : obj → bool) (l : list obj) (i : nat) (doc : document) :
  find_from p i l = Some doc → assigned doc = [].
Proof.
  revert i. induction l as [|d l IH]; intros i Hfind; [done|].
  simpl in Hfind. destruct (p d); [by injection Hfind as <-|by eapply IH].
Qed.

Lemma get_with_id_ne (next : nat) (doc : obj) (k : string) :
  k ≠ "_id" → get (with_id next doc) k = get doc k.
Proof.
  intros Hk. unfold with_id.
  destruct (doc !! "_id") as [[]|]; try done; by rewrite get_insert_ne.
Qed.

Lemma find_first_lookup (p : obj → bool) (l : list obj) (doc : document) :
  find_first p l = Some doc →
  l !! slot doc = Some (fields doc) ∧ p (fields doc) = true.
Proof.
  intros Hfind. apply find_from_lookup in Hfind as (_ & Hlook & Hp).
  by rewrite Nat.sub_0_r in Hlook.
Qed.

Lemma reference_bound {A} (ident : string) (a : A) :
  existsb (String.eqb ident) module_bindings = true →
  reference ident a = ret a.
Proof. unfold reference. by intros ->. Qed.

Lemma reference_unbound {A} (ident : string) (a : A) :
  existsb (String.eqb ident) module_bindings = false →
  reference ident a = throw (ReferenceError (ident +:+ " is not defined")).
Proof. unfold reference. by intros ->. Qed.

(** Comparisons between constants are decided by evaluation. *)
Ltac eval_strict_eq :=
  repeat match goal with
  | |- context [strict_eq ?a ?b] =>
      let r := eval vm_compute in (strict_eq a b) in
      lazymatch r with
      | true => change (strict_eq a b) with true
      | false => change (strict_eq a b) with false
      end
  end.

(** *** Facility management *)

Section FacilityProperties.
Context {NS : NotificationService} {GI : GeoIndex}.

(** The guard of line 246 answers first, whatever the operation. *)
Lemma inactive_ngo_rejected (req : request) (w : world) :
  get (req_ngo req) "status" ≠ NGO_STATUS.ACTIVE →
  manageFacility req w
  = (inl (ApiError 403 "NGO must be active to manage facilities"), w).
Proof.
  intros Hne. unfold manageFacility, NGO_STATUS.ACTIVE.
  by rewrite (strict_eq_str_false _ _ Hne).
Qed.

(** The derived properties replace what the body held. *)
Lemma new_facility_facilityType (body : obj) (ngoId : value) (next : nat) :
  get (with_id next (new_facility body ngoId)) "facilityType"
  = if strict_eq (get body "type") (VStr "CAMP")
    then FACILITY_TYPE.CAMP else FACILITY_TYPE.CENTER.
Proof.
  rewrite get_with_id_ne by done. unfold new_facility.
  by rewrite !get_insert_ne, get_insert_eq by done.
Qed.

Lemma new_facility_status (body : obj) (ngoId : value) (next : nat) :
  get (with_id next (new_facility body ngoId)) "status"
  = if strict_eq (get body "type") (VStr "CAMP")
    then VStr "PLANNED" else VStr "INACTIVE".
Proof.
  rewrite get_with_id_ne by done. unfold new_facility.
  by rewrite !get_insert_ne, get_insert_eq by done.
Qed.

(** The users that the query of [notifyNearbyDonors] selects. *)
Lemma strict_eq_bool (v : value) (b : bool) :
  strict_eq v (VBool b) = true ↔ v = VBool b.
Proof.
  destruct v; simpl; try (split; discriminate).
  rewrite Bool.eqb_true_iff. split; congruence.
Qed.

Lemma camp_announcements_enabled_spec (preference : value) :
  camp_announcements_enabled preference = true
  ↔ ∃ p, preference = VObj p
         ∧ get p "type" = VStr "CAMP_ANNOUNCEMENTS"
         ∧ get p "enabled" = VBool true.
Proof.
  destruct preference as [| | | | | | | |p]; simpl;
    try (split; [discriminate|by intros (? & [=] & _)]).
  rewrite andb_true_iff, strict_eq_str, strict_eq_bool. split.
  - intros [? ?]. by exists p.
  - by intros (? & [= <-] & ? & ?).
Qed.

Lemma nearby_donor_spec (location : value) (u : obj) :
  nearby_donor location u = true
  ↔ (∃ metres,
       distance (opt_prop (get u "address") "location") location
       = Some metres ∧ metres ≤ 10000)
    ∧ get u "donorStatus" = VStr "Active"
    ∧ (∃ preferences p,
         get u "notificationPreferences" = VArr preferences
         ∧ VObj p ∈ preferences
         ∧ get p "type" = VStr "CAMP_ANNOUNCEMENTS"
         ∧ get p "enabled" = VBool true).
Proof.
  unfold nearby_donor. rewrite !andb_true_iff, strict_eq_str.
  assert (match distance (opt_prop (get u "address") "location") location with
          | Some metres => metres <=? 10000
          | None => false
          end = true
          ↔ ∃ metres,
              distance (opt_prop (get u "address") "location") location
              = Some metres ∧ metres ≤ 10000) as ->.
  { destruct distance as [metres|].
    - rewrite Z.leb_le. split; [by exists metres|by intros (? & [= <-] & ?)].
    - split; [discriminate|by intros (? & [=] & _)]. }
  assert (elemMatch camp_announcements_enabled
            (get u "notificationPreferences") = true
          ↔ ∃ preferences p,
              get u "notificationPreferences" = VArr preferences
              ∧ VObj p ∈ preferences
              ∧ get p "type" = VStr "CAMP_ANNOUNCEMENTS"
              ∧ get p "enabled" = VBool true) as ->; [|tauto].
  destruct (get u "notificationPreferences") as [| | | | | | |preferences|];
    simpl; try (split; [discriminate|by intros (? & ? & [=] & _)]).
  rewrite existsb_exists. split.
  - intros (x & Hx & (p & -> & Htype & Henabled)%camp_announcements_enabled_spec).
    exists preferences, p. by rewrite list_elem_of_In.
  - intros (? & p & [= <-] & Hp & Htype & Henabled).
    exists (VObj p). rewrite <- list_elem_of_In. split; [done|].
    apply camp_announcements_enabled_spec. by exists p.
Qed.

Lemma List_filter_sublist {A} (p : A → bool) (l : list A) :
  sublist (List.filter p l) l.
Proof.
  induction l as [|x l IH]; simpl; [done|].
  destruct (p x); by constructor.
Qed.

(** The order of the query: a rearrangement, nearest first. *)
Lemma insert_nearest_perm (location : value) (u : obj) (l : list obj) :
  insert_nearest location u l ≡ₚ u :: l.
Proof.
  induction l as [|v l IH]; [done|]. simpl.
  destruct (_ <=? _); [done|]. rewrite IH. apply Permutation_swap.
Qed.

Lemma nearest_first_perm (location : value) (l : list obj) :
  nearest_first location l ≡ₚ l.
Proof.
  induction l as [|u l IH]; [done|]. simpl.
  by rewrite insert_nearest_perm, IH.
Qed.

Lemma nearest_first_elem_of (location : value) (l : list obj) (u : obj) :
  u ∈ nearest_first location l ↔ u ∈ l.
Proof. by rewrite nearest_first_perm. Qed.

Lemma insert_nearest_sorted (location : value) (u : obj) (l : list obj) :
  StronglySorted (λ a b, distance_to location a ≤ distance_to location b) l →
  StronglySorted (λ a b, distance_to location a ≤ distance_to location b)
    (insert_nearest location u l).
Proof.
  induction 1 as [|v l Hsorted IH Hall]; simpl.
  - repeat constructor.
  - destruct (distance_to location u <=? distance_to location v) eqn:Hle.
    + apply Z.leb_le in Hle. constructor; [by constructor|].
      constructor; [done|].
      eapply Forall_impl; [exact Hall|]. intros x Hx. simpl in *. lia.
    + apply Z.leb_gt in Hle. constructor; [done|].
      rewrite insert_nearest_perm. constructor; [lia|done].
Qed.

Lemma nearest_first_sorted
    (location : value) (l : list obj) (i j : nat) (a b : obj) :
  (i < j)%nat →
  nearest_first location l !! i = Some a →
  nearest_first location l !! j = Some b →
  distance_to location a ≤ distance_to location b.
Proof.
  assert (StronglySorted
            (λ a b, distance_to location a ≤ distance_to location b)
            (nearest_first location l)) as Hsorted.
  { induction l as [|u l IH]; [constructor|].
    simpl. by apply insert_nearest_sorted. }
  revert i j. induction Hsorted as [|v l' Hsorted IH Hall]; intros i j Hij Hi Hj.
  - done.
  - destruct j as [|j]; [lia|]. destruct i as [|i].
    + injection Hi as <-. simpl in Hj.
      rewrite Forall_forall in Hall. apply Hall.
      apply list_elem_of_lookup. by exists j.
    + simpl in Hi, Hj. apply (IH i j); [lia|done..].
Qed.

(** One call of [notifyNearbyDonors]: one bulk dispatch, and the
    outcome of the service. *)
Lemma notifyNearbyDonors_runs (facility : obj) (w : world) :
  let recipients := nearby_donors (get facility "location") w in
  notifyNearbyDonors facility w
  = (match sendBulkNotifications recipients "NEW_FACILITY_ANNOUNCEMENT"
             (announcement facility) with
     | None => inr tt
     | Some e => inl e
     end,
     set_outbox (outbox w ++ [Bulk recipients "NEW_FACILITY_ANNOUNCEMENT"
                                (announcement facility)]) w).
Proof.
  unfold notifyNearbyDonors, bind, User_find_nearby,
    notificationService_sendBulkNotifications.
  by destruct sendBulkNotifications.
Qed.

(** What a create request by an active NGO does. *)
Lemma create_runs (req : request) (w : world) :
  get (req_ngo req) "status" = NGO_STATUS.ACTIVE →
  get (req_params req) "action" = FACILITY_OPERATIONS.CREATE →
  let facility :=
    with_id (next_id w)
      (new_facility (req_body req) (get (req_ngo req) "_id")) in
  let created := (Facility_create
      (new_facility (req_body req) (get (req_ngo req) "_id")) w).2 in
  let created_response :=
    {| status := 201;
       json := new_ApiResponse 201 (VObj facility)
                 "Facility created successfully" |} in
  manageFacility req w =
    if strict_eq (get (req_body req) "type") (VStr "CAMP")
    then
      match (notifyNearbyDonors facility created).1 with
      | inl e => (inl e, (notifyNearbyDonors facility created).2)
      | inr _ => (inr created_response, (notifyNearbyDonors facility created).2)
      end
    else (inr created_response, created).
Proof.
  intros Hactive Hcreate. unfold manageFacility.
  rewrite Hactive, Hcreate.
  change (strict_eq NGO_STATUS.ACTIVE NGO_STATUS.ACTIVE) with true.
  change (strict_eq FACILITY_OPERATIONS.CREATE FACILITY_OPERATIONS.CREATE)
    with true.
  cbv beta iota. unfold negb, bind at 1, Facility_create.
  cbv beta iota zeta. cbn [fst snd]. rewrite new_facility_facilityType.
  destruct (strict_eq (get (req_body req) "type") (VStr "CAMP")) eqn:Htype.
  - change (strict_eq FACILITY_TYPE.CAMP FACILITY_TYPE.CAMP) with true.
    cbv beta iota. rewrite reference_bound by reflexivity.
    unfold bind, ret.
    by destruct (notifyNearbyDonors _ _) as [[e|[]] w'].
  - change (strict_eq FACILITY_TYPE.CENTER FACILITY_TYPE.CAMP) with false.
    reflexivity.
Qed.

(** The created facility is stored, whatever the dispatch does. *)
Lemma create_stores (req : request) (w : world) :
  get (req_ngo req) "status" = NGO_STATUS.ACTIVE →
  get (req_params req) "action" = FACILITY_OPERATIONS.CREATE →
  facilities (manageFacility req w).2
  = facilities w ++ [with_id (next_id w)
      (new_facility (req_body req) (get (req_ngo req) "_id"))].
Proof.
  intros Hactive Hcreate. rewrite (create_runs req w Hactive Hcreate).
  cbv zeta. rewrite notifyNearbyDonors_runs. cbv zeta. cbn [fst snd].
  destruct (strict_eq _ _); [|done].
  by destruct sendBulkNotifications.
Qed.

(** C1: a create request by an ACTIVE NGO stores a facility whose
    facilityType and status are derived from the type of the body:
    CAMP and PLANNED when the type is the string "CAMP", CENTER and
    INACTIVE for any other type, absent included.  The body is
    arbitrary, so a facilityType or status it carries is replaced. *)
Theorem create_derives_type_and_status (req : request) (w : world) :
  get (req_ngo req) "status" = NGO_STATUS.ACTIVE →
  get (req_params req) "action" = FACILITY_OPERATIONS.CREATE →
  ∃ facility,
    facilities (manageFacility req w).2 = facilities w ++ [facility]
    ∧ (get (req_body req) "type" = VStr "CAMP" →
       get facility "facilityType" = FACILITY_TYPE.CAMP
       ∧ get facility "status" = VStr "PLANNED")
    ∧ (get (req_body req) "type" ≠ VStr "CAMP" →
       get facility "facilityType" = FACILITY_TYPE.CENTER
       ∧ get facility "status" = VStr "INACTIVE").
Proof.
  intros Hactive Hcreate. eexists. split; [by apply create_stores|].
  rewrite new_facility_facilityType, new_facility_status.
  split.
  - intros Hcamp. by rewrite (proj2 (strict_eq_str _ _) Hcamp).
  - intros Hother. by rewrite (strict_eq_str_false _ _ Hother).
Qed.

(** C3: a create request by an NGO whose status is not ACTIVE is
    rejected with the 403 error, and the world, the facility
    collection included, is left as it was. *)
Theorem inactive_ngo_cannot_create (req : request) (w : world) :
  get (req_ngo req) "status" ≠ NGO_STATUS.ACTIVE →
  get (req_params req) "action" = FACILITY_OPERATIONS.CREATE →
  manageFacility req w
  = (inl (ApiError 403 "NGO must be active to manage facilities"), w).
Proof. intros Hne _. by apply inactive_ngo_rejected. Qed.

(** C4: a create request by an ACTIVE NGO stores a facility.  When
    its type is CAMP the notification service receives exactly one more
    call, a bulk dispatch whose recipients are the _id, email and phone
    of the stored users that lie within 10000 metres of the location of
    the facility, have donor status Active and have an enabled
    CAMP_ANNOUNCEMENTS preference, each of them once and the nearest
    first, and of no other user.  When its type is CENTER the service
    receives no call. *)
Theorem camp_creation_dispatches_once (req : request) (w : world) :
  get (req_ngo req) "status" = NGO_STATUS.ACTIVE →
  get (req_params req) "action" = FACILITY_OPERATIONS.CREATE →
  ∃ facility,
    facilities (manageFacility req w).2 = facilities w ++ [facility]
    ∧ (get facility "facilityType" = FACILITY_TYPE.CAMP →
       ∃ nearest : list obj,
         outbox (manageFacility req w).2
         = outbox w ++ [Bulk (select ["_id"; "email"; "phone"] <$> nearest)
                          "NEW_FACILITY_ANNOUNCEMENT" (announcement facility)]
         ∧ (∀ u, u ∈ nearest ↔
              u ∈ users w
              ∧ (∃ metres,
                   distance (opt_prop (get u "address") "location")
                     (get facility "location") = Some metres
                   ∧ metres ≤ 10000)
              ∧ get u "donorStatus" = VStr "Active"
              ∧ (∃ preferences p,
                   get u "notificationPreferences" = VArr preferences
                   ∧ VObj p ∈ preferences
                   ∧ get p "type" = VStr "CAMP_ANNOUNCEMENTS"
                   ∧ get p "enabled" = VBool true))
         ∧ (∃ matching, nearest ≡ₚ matching ∧ sublist matching (users w))
         ∧ (∀ i j a b da db, (i < j)%nat →
              nearest !! i = Some a → nearest !! j = Some b →
              distance (opt_prop (get a "address") "location")
                (get facility "location") = Some da →
              distance (opt_prop (get b "address") "location")
                (get facility "location") = Some db →
              da ≤ db))
    ∧ (get facility "facilityType" = FACILITY_TYPE.CENTER →
       outbox (manageFacility req w).2 = outbox w).
Proof.
  intros Hactive Hcreate. eexists. split; [by apply create_stores|].
  rewrite new_facility_facilityType.
  rewrite (create_runs req w Hactive Hcreate). cbv zeta.
  rewrite notifyNearbyDonors_runs. cbv zeta. cbn [fst snd].
  destruct (strict_eq (get (req_body req) "type") (VStr "CAMP")).
  - split; [|discriminate]. intros _.
    set (facility := with_id (next_id w)
           (new_facility (req_body req) (get (req_ngo req) "_id"))).
    exists (nearest_first (get facility "location")
              (List.filter (nearby_donor (get facility "location")) (users w))).
    split; [by destruct sendBulkNotifications|].
    split; [|split].
    + intros u. rewrite nearest_first_elem_of, list_elem_of_In, filter_In,
        <- list_elem_of_In, nearby_donor_spec. tauto.
    + eexists. split; [apply nearest_first_perm|apply List_filter_sublist].
    + intros i j a b da db Hij Ha Hb Hda Hdb.
      pose proof (nearest_first_sorted (get facility "location")
                    (List.filter (nearby_donor (get facility "location"))
                       (users w)) i j a b Hij Ha Hb) as Hle.
      unfold distance_to in Hle. by rewrite Hda, Hdb in Hle.
  - split; [discriminate|done].
Qed.

(** C6, amended: when the dispatch of a CAMP creation raises, the
    facility stays stored, and the handler ends with that error in
    place of a response. *)
Theorem failed_dispatch_keeps_facility_and_raises
    (req : request) (w : world) (e : js_error) :
  get (req_ngo req) "status" = NGO_STATUS.ACTIVE →
  get (req_params req) "action" = FACILITY_OPERATIONS.CREATE →
  get (req_body req) "type" = VStr "CAMP" →
  let facility :=
    with_id (next_id w)
      (new_facility (req_body req) (get (req_ngo req) "_id")) in
  sendBulkNotifications (nearby_donors (get facility "location") w)
    "NEW_FACILITY_ANNOUNCEMENT" (announcement facility) = Some e →
  (manageFacility req w).1 = inl e
  ∧ facilities (manageFacility req w).2 = facilities w ++ [facility].
Proof.
  intros Hactive Hcreate Hcamp facility Hfail.
  split; [|by apply create_stores].
  rewrite (create_runs req w Hactive Hcreate). cbv zeta.
  rewrite (proj2 (strict_eq_str _ _) Hcamp).
  rewrite notifyNearbyDonors_runs. cbv zeta. cbn [fst snd].
  match goal with
  | |- context [sendBulkNotifications ?r ?t ?p] =>
      change (sendBulkNotifications r t p)
        with (sendBulkNotifications
                (nearby_donors (get facility "location") w)
                "NEW_FACILITY_ANNOUNCEMENT" (announcement facility))
  end.
  by rewrite Hfail.
Qed.

(** No stored facility has both the id and the owner asked for. *)
Lemma findOne_foreign (id ngoId : value) (l : list obj) :
  (∀ d, d ∈ l → by_id id d = true → by_owner ngoId d = false) →
  find_first (by_id_and_owner id ngoId) l = None.
Proof.
  intros Hforeign. apply find_from_none. intros d Hd.
  unfold by_id_and_owner. destruct (by_id id d) eqn:E; [|done].
  by rewrite (Hforeign d Hd E).
Qed.

(** C2, amended: an update, delete, suspend or activate aimed at an
    id that no facility of the calling NGO carries (the id is unknown,
    or its facility has another owner) ends with the 404 error when
    the calling NGO is ACTIVE and with the 403 error of the guard
    otherwise; either way no facility is returned and the world is
    left as it was. *)
Theorem foreign_facility_not_found (req : request) (w : world) :
  get (req_params req) "action"
    ∈ [FACILITY_OPERATIONS.UPDATE; FACILITY_OPERATIONS.DELETE;
       FACILITY_OPERATIONS.SUSPEND; FACILITY_OPERATIONS.ACTIVATE] →
  (∀ d, d ∈ facilities w →
     by_id (get (req_params req) "facilityId") d = true →
     by_owner (get (req_ngo req) "_id") d = false) →
  manageFacility req w
  = (inl (if strict_eq (get (req_ngo req) "status") NGO_STATUS.ACTIVE
          then ApiError 404 "Facility not found"
          else ApiError 403 "NGO must be active to manage facilities"), w).
Proof.
  intros Hop Hforeign. unfold manageFacility.
  destruct (strict_eq (get (req_ngo req) "status") NGO_STATUS.ACTIVE);
    [|done].
  cbn [negb].
  repeat (apply elem_of_cons in Hop as [->|Hop]);
    [..|by apply elem_of_nil in Hop];
    eval_strict_eq; cbv beta iota; unfold bind, Facility_findOne;
    by rewrite (findOne_foreign _ _ _ Hforeign).
Qed.

(** C7, amended: an operation name outside the table is always
    rejected and leaves the world as it was, but the error depends on
    the checks that come first: 403 when the NGO is not ACTIVE, 404
    when no facility of the NGO carries the given id, and 400 only
    when such a facility exists. *)
Theorem unrecognised_operation_rejected (req : request) (w : world) :
  get (req_params req) "action" ∉ FACILITY_OPERATIONS.all →
  manageFacility req w
  = (inl (if negb (strict_eq (get (req_ngo req) "status") NGO_STATUS.ACTIVE)
          then ApiError 403 "NGO must be active to manage facilities"
          else
            match find_first
                    (by_id_and_owner (get (req_params req) "facilityId")
                       (get (req_ngo req) "_id")) (facilities w) with
            | None => ApiError 404 "Facility not found"
            | Some _ => ApiError 400 "Invalid operation"
            end), w).
Proof.
  intros Hop. unfold FACILITY_OPERATIONS.all in Hop.
  repeat (apply not_elem_of_cons in Hop as [? Hop]).
  unfold manageFacility.
  destruct (strict_eq (get (req_ngo req) "status") NGO_STATUS.ACTIVE);
    [|done].
  cbn [negb].
  unfold FACILITY_OPERATIONS.CREATE, FACILITY_OPERATIONS.UPDATE,
    FACILITY_OPERATIONS.DELETE, FACILITY_OPERATIONS.SUSPEND,
    FACILITY_OPERATIONS.ACTIVATE, FACILITY_OPERATIONS.LIST.
  rewrite !strict_eq_str_false by assumption.
  unfold bind, Facility_findOne.
  by destruct find_first.
Qed.
End FacilityProperties.

(** *** Account lifecycle *)

Section AccountProperties.
Context {NM : NgoModel} {NS : NotificationService} {FS : FileStorage}.
Variable generateOtp : M value.

(** A body of the shape the validation asks for passes it. *)
Lemma truthy_trimmed (s : jstring) :
  truthy (VStr (trim s)) = true ↔ trim s ≠ [].
Proof.
  simpl. rewrite negb_true_iff, <- not_true_iff_false, text_eqb_eq. done.
Qed.

Lemma valid_body_accepted (body : obj) (name email password regNumber : jstring) :
  get body "name" = VStr name → trim name ≠ [] →
  get body "email" = VStr email → trim email ≠ [] →
  get body "password" = VStr password → trim password ≠ [] →
  (8 ≤ length password)%nat →
  truthy (opt_prop (get body "contactPerson") "name") = true →
  truthy (opt_prop (get body "contactPerson") "phone") = true →
  get body "regNumber" = VStr regNumber → trim regNumber ≠ [] →
  registration_checks body = None.
Proof.
  intros Hn Hname%truthy_trimmed He Hemail%truthy_trimmed
    Hp Hpassword%truthy_trimmed Hlen Hcn Hcp Hr Hreg%truthy_trimmed.
  unfold registration_checks.
  rewrite Hn, He, Hp, Hr, Hcn, Hcp. cbn [opt_trim].
  rewrite Hname, Hemail, Hpassword, Hreg. cbn [negb orb length_lt].
  by rewrite (proj2 (Z.ltb_ge _ _)) by lia.
Qed.

(** C5, amended: a registration whose email or registration number
    matches a stored account never creates a record: it ends with an
    error and leaves the world as it was.  The validation of lines
    61-68 runs before the lookup, so the error is the one of the first
    failing check when there is one, and the 409 conflict otherwise: in
    particular for every body with a name, an email and a registration
    number that are strings with more than white space, a password that
    is such a string of at least 8 characters, and a contact person with
    a name and a phone. *)
Theorem duplicate_registration_conflict
    (req : request) (w : world) (stored : obj) :
  stored ∈ ngos w →
  by_email_or_regNumber (get (req_body req) "email")
    (get (req_body req) "regNumber") stored = true →
  ∃ existing conflict,
    find_first (by_email_or_regNumber (get (req_body req) "email")
                  (get (req_body req) "regNumber")) (ngos w)
    = Some existing
    ∧ conflict
      = ApiError 409
          (if strict_eq (get (fields existing) "email")
                (get (req_body req) "email")
           then "Email already registered"
           else "Registration number already exists")
    ∧ registerNGO req w
      = (inl match registration_checks (req_body req) with
             | Some e => e
             | None => conflict
             end, w)
    ∧ ∀ name email password regNumber : jstring,
        get (req_body req) "name" = VStr name → trim name ≠ [] →
        get (req_body req) "email" = VStr email → trim email ≠ [] →
        get (req_body req) "password" = VStr password →
        trim password ≠ [] → (8 ≤ length password)%nat →
        truthy (opt_prop (get (req_body req) "contactPerson") "name") = true →
        truthy (opt_prop (get (req_body req) "contactPerson") "phone") = true →
        get (req_body req) "regNumber" = VStr regNumber →
        trim regNumber ≠ [] →
        registerNGO req w = (inl conflict, w).
Proof.
  intros Hin Hmatch.
  destruct (find_from_some _ _ 0%nat _ Hin Hmatch) as (existing & Hfind & _).
  exists existing. eexists. split; [exact Hfind|]. split; [reflexivity|].
  assert (registerNGO req w
          = (inl match registration_checks (req_body req) with
                 | Some e => e
                 | None =>
                     ApiError 409
                       (if strict_eq (get (fields existing) "email")
                             (get (req_body req) "email")
                        then "Email already registered"
                        else "Registration number already exists")
                 end, w)) as Hrun.
  { unfold registerNGO, bind, NGO_findOne, find_first.
    destruct (registration_checks (req_body req)) as [e|]; [done|].
    by rewrite Hfind. }
  split; [exact Hrun|].
  intros name email password regNumber Hn Hn' He He' Hp Hp' Hlen Hcn Hcp Hr Hr'.
  rewrite Hrun.
  by rewrite (valid_body_accepted _ _ _ _ _ Hn Hn' He He' Hp Hp' Hlen Hcn Hcp
                Hr Hr').
Qed.

(** C8: a resend request by a stored NGO whose verification status
    is not PENDING is rejected with the 400 error and leaves the world
    as it was: no code is stored on the account and the notification
    service receives no call. *)
Theorem resend_rejected_unless_pending
    (req : request) (w : world) (ngo : document) :
  find_first (by_id (get (req_ngo req) "_id")) (ngos w) = Some ngo →
  get (fields ngo) "verificationStatus" ≠ NGO_STATUS.PENDING →
  resendVerificationOtp generateOtp req w
  = (inl (ApiError 400 "Verification already completed or not pending"), w).
Proof.
  intros Hfind Hstatus.
  unfold resendVerificationOtp, bind, NGO_findById, NGO_findOne.
  rewrite Hfind. unfold NGO_STATUS.PENDING.
  by rewrite (strict_eq_str_false _ _ Hstatus).
Qed.

(** The handler never reaches its response. *)
Lemma resend_never_succeeds (req : request) (w : world) :
  ∃ e, resendVerificationOtp generateOtp req w = (inl e, w).
Proof.
  unfold resendVerificationOtp, bind, NGO_findById, NGO_findOne.
  destruct find_first as [ngo|]; [|by eexists].
  destruct (negb _); [by eexists|].
  rewrite reference_unbound by reflexivity. by eexists.
Qed.

(** C10: the module binds nothing to the name [generateOtp], so a
    resend request by a stored NGO whose verification status is
    PENDING raises a ReferenceError with the world as it was: no code
    stored, no notification sent.  No resend request, whatever the
    account, ends with a response. *)
Theorem resend_pending_raises_reference_error
    (req : request) (w : world) (ngo : document) :
  find_first (by_id (get (req_ngo req) "_id")) (ngos w) = Some ngo →
  get (fields ngo) "verificationStatus" = NGO_STATUS.PENDING →
  ("generateOtp" ∉ module_bindings)
  ∧ resendVerificationOtp generateOtp req w
    = (inl (ReferenceError "generateOtp is not defined"), w)
  ∧ ∀ req' w0 resp w', 
      resendVerificationOtp generateOtp req' w0 ≠ (inr resp, w').
Proof.
  intros Hfind Hstatus. split; [|split].
  - intros Hin. apply list_elem_of_In in Hin. simpl in Hin.
    repeat (destruct Hin as [Hin|Hin]; [discriminate|]). done.
  - unfold resendVerificationOtp, bind, NGO_findById, NGO_findOne.
    rewrite Hfind, Hstatus.
    rewrite reference_unbound by reflexivity. done.
  - intros req' w0 resp w' Hok.
    destruct (resend_never_succeeds req' w0) as [e He]. congruence.
Qed.

(** Uploading documents touches the file storage only. *)
Lemma set_uploads_same (w : world) : set_uploads (uploads w) w = w.
Proof. by destruct w. Qed.

Lemma upload_documents_frame
    (files : gmap string (list value)) (allowedDocs : list string)
    (documents : obj) (w : world) :
  ∃ kept,
    (upload_documents files allowedDocs documents w).2
    = set_uploads (uploads w ++ kept) w.
Proof.
  revert documents w. induction allowedDocs as [|docType rest IH];
    intros documents w.
  - exists []. simpl. by rewrite app_nil_r, set_uploads_same.
  - simpl. destruct (files !! docType) as [uploaded|]; [|apply IH].
    unfold bind, uploadFile_call. destruct uploadFile as [e|stored].
    + exists []. simpl. by rewrite app_nil_r, set_uploads_same.
    + match goal with
      | |- context [upload_documents files rest ?d ?w1] =>
          destruct (IH d w1) as [kept Hkept];
          destruct (upload_documents files rest d w1) as [[e|d'] w2]
      end; simpl in *; rewrite Hkept; eexists;
        unfold set_uploads; simpl; by rewrite <- app_assoc.
Qed.

(** A save of a document whose password has not been assigned writes
    its fields as they are. *)
Lemma is_assigned_loaded (k : string) (d : document) :
  assigned d = [] → is_assigned k d = false.
Proof.
  intros Hd. unfold is_assigned. rewrite Hd.
  apply bool_decide_eq_false, not_elem_of_nil.
Qed.

Lemma is_assigned_assign_ne (k k' : string) (v : value) (d : document) :
  k ≠ k' → is_assigned k (assign k' v d) = is_assigned k d.
Proof.
  intros Hne. unfold is_assigned, assign. cbn [assigned].
  destruct (strict_eq _ _); [done|].
  apply bool_decide_ext. rewrite elem_of_cons.
  split; [by intros [?|?]|by right].
Qed.

Lemma NGO_save_unassigned (d : document) (w : world) :
  is_assigned "password" d = false →
  NGO_save d w = (inr tt, set_ngos (<[slot d := fields d]> (ngos w)) w).
Proof. intros Hd. unfold NGO_save. by rewrite Hd. Qed.

(** What a successful login answers and stores. *)
Lemma login_runs (req : request) (w w' : world) (resp : response) :
  loginNGO req w = (inr resp, w') →
  ∃ (ngo loaded : document),
    find_first (by_email (get (req_body req) "email")) (ngos w) = Some ngo
    ∧ find_first (by_id (get (fields ngo) "_id")) (ngos w) = Some loaded
    ∧ ngos w'
      = <[slot loaded :=
            <["lastLogin" := VDate (clock w)]>
              (<["refreshToken" :=
                   VStr (generateRefreshToken (fields loaded))]>
                 (fields loaded))]> (ngos w)
    ∧ data (json resp)
      = VObj (<["refreshToken" :=
                  VStr (generateRefreshToken (fields loaded))]>
             (<["accessToken" :=
                  VStr (generateAccessToken (fields loaded))]>
             (<["ngo" := VObj (fields ngo)]> ∅))).
Proof.
  unfold loginNGO. destruct (_ || _); [discriminate|].
  unfold bind at 1, NGO_findOne.
  destruct (find_first (by_email _) _) as [ngo|] eqn:Hngo; [|discriminate].
  destruct (negb _); [discriminate|].
  rewrite reference_bound by reflexivity.
  unfold bind at 1, ret at 1.
  unfold bind at 1, generateTokens, bind at 1, NGO_findById, NGO_findOne.
  destruct (find_first (by_id _) _) as [loaded|] eqn:Hloaded;
    [|discriminate].
  unfold bind, new_Date.
  rewrite NGO_save_unassigned.
  2:{ rewrite !is_assigned_assign_ne by done.
      apply is_assigned_loaded. by eapply find_from_assigned. }
  unfold assign, ret. cbn.
  intros [= <- <-]. by exists ngo, loaded.
Qed.

End AccountProperties.

(** *** The properties on the sample store *)

Section SampleRuns.
Import Sample.

#[local] Existing Instance flat_geo.
#[local] Existing Instance plain_model.
#[local] Existing Instance folder_storage.

Example trim_strips_both_ends : trim "  a b  " = "a b".
Proof. reflexivity. Qed.

Example blank_password_is_rejected :
  registration_checks
    (<["password" := VStr "         "]> (req_body example_registration))
  = Some (ApiError 400 "Password must be at least 8 characters").
Proof. by vm_compute. Qed.

Example numeric_name_raises_type_error :
  registration_checks (<["name" := VNum 7]> (req_body example_registration))
  = Some (TypeError "name?.trim is not a function").
Proof. by vm_compute. Qed.

(** A name of no-break spaces is white space only, and a password of
    seven code units beyond ASCII is too short. *)
Example no_break_space_name_is_rejected :
  registration_checks
    (<["name" := VStr [160; 160]%N]> (req_body example_registration))
  = Some (ApiError 400 "NGO name is required").
Proof. by vm_compute. Qed.

Example seven_unit_password_is_rejected :
  registration_checks
    (<["password" := VStr [1087; 1072; 1088; 1086; 1083; 1100; 49]%N]>
       (req_body example_registration))
  = Some (ApiError 400 "Password must be at least 8 characters").
Proof. by vm_compute. Qed.

(** The example of the specification: the first registration answers
    201 with status PENDING, the second one with the same email 409. *)
Example registration_then_duplicate :
  ∃ resp w1,
    registerNGO example_registration empty_world = (inr resp, w1)
    ∧ status resp = 201
    ∧ opt_prop (opt_prop (data (json resp)) "ngo") "status" = VStr "PENDING"
    ∧ registerNGO example_registration w1
      = (inl (ApiError 409 "Email already registered"), w1).
Proof.
  destruct (registerNGO example_registration empty_world)
    as [[e|resp] w1] eqn:Hrun; [vm_compute in Hrun; discriminate|].
  exists resp, w1. split; [done|].
  vm_compute in Hrun. injection Hrun as <- <-.
  repeat split; by vm_compute.
Qed.

(** Listing answers the facilities of the caller only. *)
Example list_answers_own_facilities :
  (manageFacility (NS := reliable_service)
     (request_of active_ngo (<["action" := VStr "LIST"]> ∅) ∅) w0).1
  = inr {| status := 200;
           json := new_ApiResponse 200 (VArr [])
                     "Facilities fetched successfully" |}.
Proof. by vm_compute. Qed.

(** Suspending an own facility stores the new status. *)
Example suspend_own_facility :
  (λ d, get d "status")
    <$> facilities
          (manageFacility (NS := reliable_service)
             (request_of owner_ngo
                (<["action" := VStr "suspend"]>
                   (<["facilityId" := VId 5]> ∅)) ∅) w0).2
  = [VStr "SUSPENDED"].
Proof. by vm_compute. Qed.

Lemma every_sample_facility_is_foreign (id : value) :
  ∀ d, d ∈ facilities w0 → by_id id d = true →
       by_owner (VId 1) d = false.
Proof. intros d Hd _. by apply list_elem_of_singleton in Hd as ->. Qed.

(** The camp request is stored as a planned camp although its body
    asks for facilityType CENTER and status ACTIVE. *)
Lemma camp_request_stored_as_planned_camp :
  ∃ facility,
    facilities (manageFacility (NS := reliable_service) camp_request w0).2
    = [city_center; facility]
    ∧ get (req_body camp_request) "facilityType" = VStr "CENTER"
    ∧ get facility "facilityType" = FACILITY_TYPE.CAMP
    ∧ get facility "status" = VStr "PLANNED".
Proof.
  destruct (create_derives_type_and_status (NS := reliable_service)
              camp_request w0) as (facility & Hstored & Hcamp & _);
    [reflexivity..|].
  exists facility. split; [exact Hstored|]. split; [reflexivity|].
  apply Hcamp. reflexivity.
Defined.

Lemma pending_ngo_create_forbidden :
  manageFacility (NS := reliable_service) pending_create_request w0
  = (inl (ApiError 403 "NGO must be active to manage facilities"), w0).
Proof.
  apply (inactive_ngo_cannot_create (NS := reliable_service)
           pending_create_request w0); [discriminate|reflexivity].
Defined.

(** In the town, a camp at the origin is announced to the donor at
    100 m and then to the donor at 300 m; the donor at 20 km, the one
    that is not active and the one that has not opted in are left out. *)
Lemma camp_request_dispatches_once :
  ∃ recipients payload,
    outbox (manageFacility (NS := reliable_service) (GI := line_geo)
              origin_camp_request town).2
    = [Bulk recipients "NEW_FACILITY_ANNOUNCEMENT" payload]
    ∧ (λ r, get r "_id") <$> recipients = [VId 25; VId 21].
Proof.
  destruct (camp_creation_dispatches_once (NS := reliable_service)
              (GI := line_geo) origin_camp_request town)
    as (facility & Hstored & Hcamp & _); [reflexivity..|].
  apply app_inj_tail in Hstored as [_ <-].
  destruct Hcamp as (nearest & Hout & _); [reflexivity|].
  remember (select ["_id"; "email"; "phone"] <$> nearest) as recipients.
  exists recipients. eexists. split; [exact Hout|].
  clear Heqrecipients. vm_compute in Hout. injection Hout as <-.
  by vm_compute.
Defined.

Lemma failed_dispatch_on_sample :
  (manageFacility (NS := failing_service) camp_request w0).1
  = inl (ServiceError "gateway down")
  ∧ length (facilities
              (manageFacility (NS := failing_service) camp_request w0).2)
    = 2%nat.
Proof.
  destruct (failed_dispatch_keeps_facility_and_raises
              (NS := failing_service) camp_request w0
              (ServiceError "gateway down")) as [Hraised Hstored];
    [reflexivity..|].
  split; [exact Hraised|]. by rewrite Hstored.
Defined.

Lemma foreign_update_not_found :
  manageFacility (NS := reliable_service) foreign_update_request w0
  = (inl (ApiError 404 "Facility not found"), w0).
Proof.
  apply (foreign_facility_not_found (NS := reliable_service)
           foreign_update_request w0).
  - apply elem_of_cons. by left.
  - apply every_sample_facility_is_foreign.
Defined.

Lemma archive_request_rejected :
  ∃ e, manageFacility (NS := reliable_service) archive_request w0
       = (inl e, w0).
Proof.
  eexists. apply (unrecognised_operation_rejected (NS := reliable_service)
                    archive_request w0).
  unfold FACILITY_OPERATIONS.all.
  repeat (apply not_elem_of_cons; split; [discriminate|]).
  apply not_elem_of_nil.
Defined.

Lemma duplicate_email_conflict :
  registerNGO (registration "a@b.org" "R-9" "longenough2") w0
  = (inl (ApiError 409 "Email already registered"), w0).
Proof.
  destruct (duplicate_registration_conflict
              (registration "a@b.org" "R-9" "longenough2") w0 helping_hands)
    as (existing & conflict & Hfind & -> & _ & Hvalid).
  - apply elem_of_cons. by left.
  - reflexivity.
  - rewrite (Hvalid "Second Chance" "a@b.org" "longenough2" "R-9");
      try reflexivity; try discriminate; [|cbn; lia].
    injection Hfind as <-. reflexivity.
Defined.

Lemma resend_by_active_ngo_rejected :
  resendVerificationOtp (NS := reliable_service) otp_source
    (resend_request active_ngo) w0
  = (inl (ApiError 400 "Verification already completed or not pending"), w0).
Proof.
  apply (resend_rejected_unless_pending (NS := reliable_service) otp_source
           (resend_request active_ngo) w0
           {| slot := 0; fields := helping_hands; assigned := [] |});
    [reflexivity|discriminate].
Defined.

Lemma resend_by_pending_ngo_raises :
  resendVerificationOtp (NS := reliable_service) otp_source
    (resend_request pending_ngo) w0
  = (inl (ReferenceError "generateOtp is not defined"), w0).
Proof.
  apply (resend_pending_raises_reference_error (NS := reliable_service)
           otp_source (resend_request pending_ngo) w0
           {| slot := 1; fields := new_hope; assigned := [] |}); reflexivity.
Defined.


(** *** Inputs on which the claims fail as they are worded *)

(** C2: an update by an NGO that is not ACTIVE, aimed at an id that no
    facility carries, ends with the 403 error of the guard, not with
    the 404 error. *)
Lemma update_by_pending_ngo_is_forbidden_not_missing :
  get (req_params pending_update_request) "action"
    = FACILITY_OPERATIONS.UPDATE
  ∧ (∀ d, d ∈ facilities w0 → by_id (VId 99) d = false)
  ∧ manageFacility (NS := reliable_service) pending_update_request w0
    = (inl (ApiError 403 "NGO must be active to manage facilities"), w0)
  ∧ ¬ ∃ message,
        (manageFacility (NS := reliable_service)
           pending_update_request w0).1
        = inl (ApiError 404 message).
Proof.
  split; [reflexivity|]. split.
  - intros d Hd. by apply list_elem_of_singleton in Hd as ->.
  - split; [by vm_compute|]. intros [message H].
    vm_compute in H. discriminate.
Qed.


(** C5: a registration with the email of a stored account and a
    password of five characters ends with the 400 error of the
    validation, not with the 409 conflict. *)
Lemma duplicate_email_with_short_password_is_invalid :
  helping_hands ∈ ngos w0
  ∧ get helping_hands "email"
    = get (req_body (registration "a@b.org" "R-9" "short")) "email"
  ∧ registerNGO (registration "a@b.org" "R-9" "short") w0
    = (inl (ApiError 400 "Password must be at least 8 characters"), w0)
  ∧ ¬ ∃ message,
        (registerNGO (registration "a@b.org" "R-9" "short") w0).1
        = inl (ApiError 409 message).
Proof.
  split; [apply elem_of_cons; by left|]. split; [reflexivity|].
  split; [by vm_compute|]. intros [message H].
  vm_compute in H. discriminate.
Qed.

(** C6: with a notification service that raises, the creation of a
    camp ends with the error of the service and sends no response. *)
Lemma failed_dispatch_sends_no_success_response :
  get (req_ngo camp_request) "status" = NGO_STATUS.ACTIVE
  ∧ get (req_body camp_request) "type" = VStr "CAMP"
  ∧ (manageFacility (NS := failing_service) camp_request w0).1
    = inl (ServiceError "gateway down")
  ∧ ¬ ∃ resp,
        (manageFacility (NS := failing_service) camp_request w0).1
        = inr resp.
Proof.
  split; [reflexivity|]. split; [reflexivity|].
  split; [by vm_compute|]. intros [resp H].
  vm_compute in H. discriminate.
Qed.

(** C7: the operation name [archive] by an ACTIVE NGO on an id that no
    facility carries ends with the 404 error, not with the 400
    error. *)
Lemma unknown_operation_on_missing_facility_is_not_found :
  (get (req_params archive_request) "action" ∉ FACILITY_OPERATIONS.all)
  ∧ manageFacility (NS := reliable_service) archive_request w0
    = (inl (ApiError 404 "Facility not found"), w0)
  ∧ ¬ ∃ message,
        (manageFacility (NS := reliable_service) archive_request w0).1
        = inl (ApiError 400 message).
Proof.
  split.
  - unfold FACILITY_OPERATIONS.all.
    repeat (apply not_elem_of_cons; split; [discriminate|]).
    apply not_elem_of_nil.
  - split; [by vm_compute|]. intros [message H].
    vm_compute in H. discriminate.
Qed.
End SampleRuns.

(** ** Further properties of the handlers *)

(** *** Store queries *)

Lemma find_from_insert_same
    (p : obj → bool) (l : list obj) (i : nat) (doc : document) (d' : obj) :
  find_from p i l = Some doc → p d' = true →
  find_from p i (<[(slot doc - i)%nat := d']> l)
  = Some {| slot := slot doc; fields := d'; assigned := [] |}.
Proof.
  revert i. induction l as [|d l IH]; intros i Hfind Hp; [done|].
  simpl in Hfind. destruct (p d) eqn:E.
  - injection Hfind as <-. simpl. rewrite Nat.sub_diag. simpl.
    by rewrite Hp.
  - pose proof (find_from_lookup _ _ _ _ Hfind) as (Hle & _ & _).
    replace (slot doc - i)%nat with (S (slot doc - S i)) by lia.
    simpl. rewrite E. by apply IH.
Qed.

Lemma find_first_insert_same
    (p : obj → bool) (l : list obj) (doc : document) (d' : obj) :
  find_first p l = Some doc → p d' = true →
  find_first p (<[slot doc := d']> l)
  = Some {| slot := slot doc; fields := d'; assigned := [] |}.
Proof.
  intros Hfind Hp. unfold find_first.
  rewrite <- (Nat.sub_0_r (slot doc)) at 1.
  by apply find_from_insert_same.
Qed.


(** *** Facility operations *)

Section FacilityOperations.
Context {NS : NotificationService} {GI : GeoIndex}.


(** The path of an operation on a facility that the lookup finds. *)
Lemma found_runs (req : request) (w : world) (facility : document) :
  get (req_ngo req) "status" = NGO_STATUS.ACTIVE →
  get (req_params req) "action" ≠ FACILITY_OPERATIONS.CREATE →
  get (req_params req) "action" ≠ FACILITY_OPERATIONS.LIST →
  find_first (by_id_and_owner (get (req_params req) "facilityId")
                (get (req_ngo req) "_id")) (facilities w) = Some facility →
  let action := get (req_params req) "action" in
  manageFacility req w
  = if strict_eq action FACILITY_OPERATIONS.UPDATE then
      if is_assigned "_id" (Object_assign facility (req_body req))
      then (inl (StoreError "_id is immutable"), w)
      else
      (inr {| status := 200;
              json := new_ApiResponse 200
                        (VObj (req_body req ∪ fields facility))
                        (text_of "Facility " ++ interpolate action
                         ++ text_of "d successfully") |},
       set_facilities
         (<[slot facility := req_body req ∪ fields facility]> (facilities w)) w)
    else if strict_eq action FACILITY_OPERATIONS.DELETE then
      (inr {| status := 200;
              json := new_ApiResponse 200 (VObj (fields facility))
                        (text_of "Facility " ++ interpolate action
                         ++ text_of "d successfully") |},
       set_facilities (delete (slot facility) (facilities w)) w)
    else if strict_eq action FACILITY_OPERATIONS.SUSPEND
            || strict_eq action FACILITY_OPERATIONS.ACTIVATE then
      let stored :=
        <["status" := if strict_eq action FACILITY_OPERATIONS.SUSPEND
                      then VStr "SUSPENDED" else VStr "ACTIVE"]>
          (fields facility) in
      (inr {| status := 200;
              json := new_ApiResponse 200 (VObj stored)
                        (text_of "Facility " ++ interpolate action
                         ++ text_of "d successfully") |},
       set_facilities (<[slot facility := stored]> (facilities w)) w)
    else (inl (ApiError 400 "Invalid operation"), w).
Proof.
  intros Hactive Hcreate Hlist Hfind action. unfold manageFacility.
  rewrite Hactive.
  change (strict_eq NGO_STATUS.ACTIVE NGO_STATUS.ACTIVE) with true.
  unfold FACILITY_OPERATIONS.CREATE, FACILITY_OPERATIONS.LIST in *.
  rewrite !strict_eq_str_false by assumption. cbn [negb].
  unfold bind at 1, Facility_findOne. rewrite Hfind. fold action.
  pose proof (find_from_assigned _ _ _ _ Hfind) as Hloaded.
  destruct (strict_eq action FACILITY_OPERATIONS.UPDATE).
  { unfold bind, Facility_save.
    by destruct (is_assigned "_id" (Object_assign facility (req_body req))). }
  destruct (strict_eq action FACILITY_OPERATIONS.DELETE); [done|].
  destruct (strict_eq action FACILITY_OPERATIONS.SUSPEND
            || strict_eq action FACILITY_OPERATIONS.ACTIVATE); [|done].
  unfold bind, Facility_save.
  rewrite is_assigned_assign_ne by done.
  by rewrite (is_assigned_loaded _ _ Hloaded).
Qed.


(** X2: a delete by the owner answers 200 with the document as it was
    stored and removes that record and no other: the collection is the
    old one without the slot of the facility, one record shorter. *)
Theorem delete_removes_the_record
    (req : request) (w : world) (facility : document) :
  get (req_ngo req) "status" = NGO_STATUS.ACTIVE →
  get (req_params req) "action" = FACILITY_OPERATIONS.DELETE →
  find_first (by_id_and_owner (get (req_params req) "facilityId")
                (get (req_ngo req) "_id")) (facilities w) = Some facility →
  ∃ resp w',
    manageFacility req w = (inr resp, w')
    ∧ status resp = 200
    ∧ data (json resp) = VObj (fields facility)
    ∧ message (json resp) = "Facility deleted successfully"
    ∧ facilities w' = delete (slot facility) (facilities w)
    ∧ S (length (facilities w')) = length (facilities w)
    ∧ (∀ j, (j < slot facility)%nat →
            facilities w' !! j = facilities w !! j)
    ∧ (∀ j, (slot facility ≤ j)%nat →
            facilities w' !! j = facilities w !! S j).
Proof.
  intros Hactive Haction Hfind.
  rewrite (found_runs req w facility Hactive) by (by rewrite ?Haction).
  cbv zeta. rewrite Haction. eval_strict_eq. cbv iota.
  apply find_first_lookup in Hfind as [Hslot _].
  apply lookup_lt_Some in Hslot as Hlt.
  eexists _, _. split; [reflexivity|].
  cbn [status json data message facilities set_facilities].
  repeat split.
  - rewrite length_delete by eauto. lia.
  - intros j Hj. by apply list_lookup_delete_lt.
  - intros j Hj. by apply list_lookup_delete_ge.
Qed.

(** X3: suspend and activate by the owner write the status SUSPENDED,
    respectively ACTIVE, on that record and change no other property of
    it; the message of the answer is built by appending "d" to the
    operation name, which gives "Facility suspendd successfully". *)
Theorem suspend_and_activate_set_the_status
    (req : request) (w : world) (facility : document) :
  get (req_ngo req) "status" = NGO_STATUS.ACTIVE →
  get (req_params req) "action"
    ∈ [FACILITY_OPERATIONS.SUSPEND; FACILITY_OPERATIONS.ACTIVATE] →
  find_first (by_id_and_owner (get (req_params req) "facilityId")
                (get (req_ngo req) "_id")) (facilities w) = Some facility →
  let suspend :=
    strict_eq (get (req_params req) "action") FACILITY_OPERATIONS.SUSPEND in
  ∃ resp w' stored,
    manageFacility req w = (inr resp, w')
    ∧ data (json resp) = VObj stored
    ∧ message (json resp)
      = (if suspend then "Facility suspendd successfully"
         else "Facility activated successfully")
    ∧ facilities w' = <[slot facility := stored]> (facilities w)
    ∧ get stored "status"
      = (if suspend then VStr "SUSPENDED" else VStr "ACTIVE")
    ∧ (∀ k, k ≠ "status" → get stored k = get (fields facility) k).
Proof.
  intros Hactive Haction Hfind suspend. subst suspend.
  assert (get (req_params req) "action" ≠ FACILITY_OPERATIONS.CREATE
          ∧ get (req_params req) "action" ≠ FACILITY_OPERATIONS.LIST)
    as [Hcreate Hlist].
  { repeat (apply elem_of_cons in Haction as [->|Haction]);
      [..|by apply elem_of_nil in Haction]; by split. }
  rewrite (found_runs req w facility Hactive Hcreate Hlist Hfind).
  cbv zeta.
  repeat (apply elem_of_cons in Haction as [->|Haction]);
    [..|by apply elem_of_nil in Haction];
    eval_strict_eq; cbv iota; cbn [orb];
    (eexists _, _, _; split; [reflexivity|]);
    cbn [status json data message facilities set_facilities];
    (repeat split; [by rewrite get_insert_eq|]);
    intros k Hk; by rewrite get_insert_ne.
Qed.

Lemma list_runs (req : request) (w : world) :
  get (req_ngo req) "status" = NGO_STATUS.ACTIVE →
  get (req_params req) "action" = FACILITY_OPERATIONS.LIST →
  manageFacility req w
  = (inr {| status := 200;
            json := new_ApiResponse 200
                      (VArr (VObj <$> List.filter
                               (by_owner (get (req_ngo req) "_id"))
                               (facilities w)))
                      "Facilities fetched successfully" |}, w).
Proof.
  intros Hactive Haction. unfold manageFacility.
  rewrite Hactive, Haction. by eval_strict_eq.
Qed.

Lemma missing_runs (req : request) (w : world) :
  get (req_ngo req) "status" = NGO_STATUS.ACTIVE →
  get (req_params req) "action" ≠ FACILITY_OPERATIONS.CREATE →
  get (req_params req) "action" ≠ FACILITY_OPERATIONS.LIST →
  find_first (by_id_and_owner (get (req_params req) "facilityId")
                (get (req_ngo req) "_id")) (facilities w) = None →
  manageFacility req w = (inl (ApiError 404 "Facility not found"), w).
Proof.
  intros Hactive Hcreate Hlist Hfind. unfold manageFacility.
  rewrite Hactive.
  change (strict_eq NGO_STATUS.ACTIVE NGO_STATUS.ACTIVE) with true.
  unfold FACILITY_OPERATIONS.CREATE, FACILITY_OPERATIONS.LIST in *.
  rewrite !strict_eq_str_false by assumption. cbn [negb].
  unfold bind, Facility_findOne. by rewrite Hfind.
Qed.

(** The ways a request can end, by the checks it passes. *)
Lemma manageFacility_cases (req : request) (w : world) :
  manageFacility req w
    = (inl (ApiError 403 "NGO must be active to manage facilities"), w)
  ∨ (get (req_ngo req) "status" = NGO_STATUS.ACTIVE
     ∧ get (req_params req) "action" = FACILITY_OPERATIONS.CREATE)
  ∨ (get (req_ngo req) "status" = NGO_STATUS.ACTIVE
     ∧ get (req_params req) "action" = FACILITY_OPERATIONS.LIST)
  ∨ (get (req_ngo req) "status" = NGO_STATUS.ACTIVE
     ∧ get (req_params req) "action" ≠ FACILITY_OPERATIONS.CREATE
     ∧ get (req_params req) "action" ≠ FACILITY_OPERATIONS.LIST).
Proof.
  destruct (strict_eq (get (req_ngo req) "status") NGO_STATUS.ACTIVE)
    eqn:Hactive.
  - apply strict_eq_str in Hactive. right.
    destruct (strict_eq (get (req_params req) "action")
                FACILITY_OPERATIONS.CREATE) eqn:Hcreate.
    { apply strict_eq_str in Hcreate. by left. }
    destruct (strict_eq (get (req_params req) "action")
                FACILITY_OPERATIONS.LIST) eqn:Hlist.
    { apply strict_eq_str in Hlist. right. by left. }
    right. right. repeat split; [done|..]; intros Heq;
      rewrite Heq in *; discriminate.
  - left. unfold manageFacility. by rewrite Hactive.
Qed.

(** X4: a LIST request by an ACTIVE NGO answers 200 with the stored
    facilities whose ngoId is the id of the caller and no other, each as
    often and in the order as the store holds them, and leaves the world
    as it was. *)
Theorem list_answers_the_callers_facilities (req : request) (w : world) :
  get (req_ngo req) "status" = NGO_STATUS.ACTIVE →
  get (req_params req) "action" = FACILITY_OPERATIONS.LIST →
  ∃ resp,
    manageFacility req w = (inr resp, w)
    ∧ status resp = 200
    ∧ data (json resp)
      = VArr (VObj <$> List.filter
                (λ d, strict_eq (get d "ngoId") (get (req_ngo req) "_id"))
                (facilities w)).
Proof.
  intros Hactive Haction. rewrite (list_runs req w Hactive Haction).
  by eexists.
Qed.

(** X5: no request, whatever its operation and body, changes or removes
    a facility of another NGO: a stored facility whose ngoId is not the
    id of the caller is still stored afterwards. *)
Theorem foreign_facilities_are_kept
    (req : request) (w : world) (d : obj) :
  d ∈ facilities w →
  by_owner (get (req_ngo req) "_id") d = false →
  d ∈ facilities (manageFacility req w).2.
Proof.
  intros Hd Hforeign.
  destruct (manageFacility_cases req w)
    as [->|[[Hactive Haction]|[[Hactive Haction]|(Hactive & Hcreate & Hlist)]]];
    [done| | |].
  - rewrite (create_stores req w Hactive Haction).
    apply elem_of_app. by left.
  - by rewrite (list_runs req w Hactive Haction).
  - destruct (find_first (by_id_and_owner (get (req_params req) "facilityId")
                (get (req_ngo req) "_id")) (facilities w))
      as [facility|] eqn:Hfind;
      [|by rewrite (missing_runs req w Hactive Hcreate Hlist Hfind)].
    rewrite (found_runs req w facility Hactive Hcreate Hlist Hfind).
    cbv zeta.
    apply find_first_lookup in Hfind as [Hslot Hown].
    apply andb_prop in Hown as [_ Hown].
    apply list_elem_of_lookup in Hd as [j Hj].
    assert (j ≠ slot facility) as Hne by (intros ->; congruence).
    assert (∀ x, d ∈ <[slot facility := x]> (facilities w)) as Hkept.
    { intros x. apply list_elem_of_lookup. exists j.
      by rewrite list_lookup_insert_ne. }
    set (action := get (req_params req) "action").
    destruct (strict_eq action FACILITY_OPERATIONS.UPDATE).
    { destruct (is_assigned "_id" _); [|apply Hkept].
      apply list_elem_of_lookup. by exists j. }
    destruct (strict_eq action FACILITY_OPERATIONS.DELETE).
    { cbn [snd facilities set_facilities]. apply list_elem_of_lookup.
      destruct (decide (j < slot facility)%nat).
      - exists j. by rewrite list_lookup_delete_lt.
      - exists (pred j). rewrite list_lookup_delete_ge by lia.
        by replace (S (pred j)) with j by lia. }
    destruct (strict_eq action FACILITY_OPERATIONS.SUSPEND
              || strict_eq action FACILITY_OPERATIONS.ACTIVATE);
      [apply Hkept|].
    apply list_elem_of_lookup. by exists j.
Qed.

(** X6: a create request stores the id of the caller as ngoId, whatever
    the body names for it, builds the location from the longitude and
    latitude of the body, and hands every property of the body other
    than _id, ngoId, facilityType, status and location to the store as
    it was sent. *)
Theorem create_sets_owner_and_location (req : request) (w : world) :
  get (req_ngo req) "status" = NGO_STATUS.ACTIVE →
  get (req_params req) "action" = FACILITY_OPERATIONS.CREATE →
  ∃ facility,
    facilities (manageFacility req w).2 = facilities w ++ [facility]
    ∧ get facility "ngoId" = get (req_ngo req) "_id"
    ∧ get facility "location"
      = VObj (<["coordinates" := VArr [get (req_body req) "longitude";
                                       get (req_body req) "latitude"]]>
             (<["type" := VStr "Point"]> ∅))
    ∧ (∀ k, k ∉ ["_id"; "ngoId"; "facilityType"; "status"; "location"] →
            get facility k = get (req_body req) k).
Proof.
  intros Hactive Haction. eexists. split; [by apply create_stores|].
  repeat split.
  - rewrite get_with_id_ne by done. unfold new_facility.
    by rewrite !get_insert_ne, get_insert_eq by done.
  - rewrite get_with_id_ne by done. unfold new_facility.
    by rewrite get_insert_eq.
  - intros k Hk.
    repeat (apply not_elem_of_cons in Hk as [? Hk]).
    rewrite get_with_id_ne by done. unfold new_facility.
    by rewrite !get_insert_ne by done.
Qed.

(** X7: facility management never touches the accounts, the donors or
    the audit log, and calls the notification service on a create
    request only. *)
Theorem manageFacility_frame (req : request) (w : world) :
  ngos (manageFacility req w).2 = ngos w
  ∧ users (manageFacility req w).2 = users w
  ∧ activities (manageFacility req w).2 = activities w
  ∧ (get (req_params req) "action" ≠ FACILITY_OPERATIONS.CREATE →
     outbox (manageFacility req w).2 = outbox w).
Proof.
  destruct (manageFacility_cases req w)
    as [->|[[Hactive Haction]|[[Hactive Haction]|(Hactive & Hcreate & Hlist)]]];
    [done| | |].
  - rewrite (create_runs req w Hactive Haction). cbv zeta.
    rewrite notifyNearbyDonors_runs. cbv zeta. cbn [fst snd].
    destruct (strict_eq _ _); [|done].
    by destruct sendBulkNotifications.
  - by rewrite (list_runs req w Hactive Haction).
  - destruct (find_first (by_id_and_owner (get (req_params req) "facilityId")
                (get (req_ngo req) "_id")) (facilities w))
      as [facility|] eqn:Hfind;
      [|by rewrite (missing_runs req w Hactive Hcreate Hlist Hfind)].
    rewrite (found_runs req w facility Hactive Hcreate Hlist Hfind).
    cbv zeta. set (action := get (req_params req) "action").
    destruct (strict_eq action FACILITY_OPERATIONS.UPDATE);
      [by destruct (is_assigned "_id" _)|].
    destruct (strict_eq action FACILITY_OPERATIONS.DELETE); [done|].
    by destruct (strict_eq action FACILITY_OPERATIONS.SUSPEND
                 || strict_eq action FACILITY_OPERATIONS.ACTIVATE).
Qed.
End FacilityOperations.

Section FacilitySequences.
Context {NS : NotificationService} {GI : GeoIndex}.

(** X8: a suspend followed by an activate of the same facility by the
    same NGO leaves the collection as it was except for the status of
    that facility, which is ACTIVE whatever it was before the two
    requests. *)
Theorem activate_after_suspend
    (req_s req_a : request) (w : world) (facility : document) :
  get (req_ngo req_s) "status" = NGO_STATUS.ACTIVE →
  get (req_ngo req_a) "status" = NGO_STATUS.ACTIVE →
  get (req_params req_s) "action" = FACILITY_OPERATIONS.SUSPEND →
  get (req_params req_a) "action" = FACILITY_OPERATIONS.ACTIVATE →
  get (req_ngo req_a) "_id" = get (req_ngo req_s) "_id" →
  get (req_params req_a) "facilityId" = get (req_params req_s) "facilityId" →
  find_first (by_id_and_owner (get (req_params req_s) "facilityId")
                (get (req_ngo req_s) "_id")) (facilities w) = Some facility →
  facilities (manageFacility req_a (manageFacility req_s w).2).2
  = <[slot facility := <["status" := VStr "ACTIVE"]> (fields facility)]>
      (facilities w).
Proof.
  intros Hs Ha Hsuspend Hactivate Hid Hfid Hfind.
  rewrite (found_runs req_s w facility Hs) by (by rewrite ?Hsuspend).
  cbv zeta. rewrite Hsuspend. eval_strict_eq. cbv iota. cbn [orb snd].
  pose proof (find_first_lookup _ _ _ Hfind) as [_ Hp].
  assert (by_id_and_owner (get (req_params req_s) "facilityId")
            (get (req_ngo req_s) "_id")
            (<["status" := VStr "SUSPENDED"]> (fields facility)) = true)
    as Hp'.
  { revert Hp. unfold by_id_and_owner, by_id, by_owner.
    by rewrite !get_insert_ne by done. }
  pose proof (find_first_insert_same _ _ _ _ Hfind Hp') as Hfind'.
  rewrite <- Hid, <- Hfid in Hfind'.
  erewrite (found_runs req_a _ _ Ha); [| by rewrite Hactivate..| exact Hfind'].
  cbv zeta. rewrite Hactivate. eval_strict_eq. cbv iota.
  cbn [orb snd facilities set_facilities slot fields].
  by rewrite list_insert_insert_eq, insert_insert_eq.
Qed.
End FacilitySequences.

(** *** Registration *)

Lemma find_from_none_inv (p : obj → bool) (l : list obj) (i : nat) :
  find_from p i l = None → ∀ d, d ∈ l → p d = false.
Proof.
  revert i. induction l as [|d l IH]; intros i Hfind d' Hd'.
  - by apply elem_of_nil in Hd'.
  - simpl in Hfind. destruct (p d) eqn:E; [done|].
    apply elem_of_cons in Hd' as [->|Hd']; [done|]. by eapply IH.
Qed.

Lemma text_eqb_sym (a b : jstring) : text_eqb a b = text_eqb b a.
Proof.
  revert b. induction a as [|x a IH]; intros [|y b]; simpl; try done.
  by rewrite N.eqb_sym, IH.
Qed.

Lemma strict_eq_sym (a b : value) : strict_eq a b = strict_eq b a.
Proof.
  destruct a, b; simpl; try done.
  - by destruct b, b0.
  - apply Z.eqb_sym.
  - apply text_eqb_sym.
  - apply Nat.eqb_sym.
  - apply Z.eqb_sym.
Qed.

Section Registration.
Context {NM : NgoModel} {FS : FileStorage}.



Lemma with_id_fresh (next : nat) (doc : obj) :
  doc !! "_id" = None → with_id next doc = <["_id" := VId next]> doc.
Proof. intros Hdoc. unfold with_id. by rewrite Hdoc. Qed.

(** What a registration that gets through does. *)
Lemma register_runs (req : request) (w w' : world) (resp : response) :
  registerNGO req w = (inr resp, w') →
  ∃ (documents : obj) (kept : list upload) (ngo activity : obj),
    registration_checks (req_body req) = None
    ∧ find_first (by_email_or_regNumber (get (req_body req) "email")
                    (get (req_body req) "regNumber")) (ngos w) = None
    ∧ match req_files req with
      | Some files =>
          upload_documents files
            ["registrationCert"; "licenseCert"; "taxExemptionCert"] ∅ w
      | None => ret ∅ w
      end = (inr documents, set_uploads (uploads w ++ kept) w)
    ∧ ngos w' = ngos w ++ [ngo]
    ∧ activities w' = activities w ++ [activity]
    ∧ facilities w' = facilities w
    ∧ users w' = users w
    ∧ outbox w' = outbox w
    ∧ uploads w' = uploads w ++ kept
    ∧ status resp = 201
    ∧ data (json resp)
      = VObj (<["ngo" := VObj
           (<["status" := VStr "PENDING"]>
           (<["email" := get (req_body req) "email"]>
           (<["name" := get (req_body req) "name"]>
           (<["_id" := VId (next_id w)]> ∅))))]> ∅)
    ∧ get ngo "documents" = VObj documents
    ∧ get ngo "_id" = VId (next_id w)
    ∧ get ngo "verificationStatus" = VStr "PENDING"
    ∧ get ngo "refreshToken" = VUndef
    ∧ get ngo "name" = get (req_body req) "name"
    ∧ get ngo "email" = get (req_body req) "email"
    ∧ get ngo "regNumber" = get (req_body req) "regNumber"
    ∧ get ngo "password" = hashPassword (get (req_body req) "password")
    ∧ get activity "type" = VStr "NGO_REGISTERED"
    ∧ opt_prop (get activity "performedBy") "userId" = get ngo "_id".
Proof.
  unfold registerNGO.
  destruct registration_checks; [discriminate|].
  unfold bind at 1, NGO_findOne.
  destruct find_first; [discriminate|].
  unfold bind at 1.
  destruct (match req_files req with _ => _ end w)
    as [[e|documents] w1] eqn:Hup; [discriminate|].
  assert (∃ kept, w1 = set_uploads (uploads w ++ kept) w) as [kept ->].
  { destruct (req_files req) as [files|].
    - destruct (upload_documents_frame files
        ["registrationCert"; "licenseCert"; "taxExemptionCert"] ∅ w)
        as [kept Hkept].
      exists kept. by rewrite Hup in Hkept.
    - injection Hup as _ <-. exists [].
      by rewrite app_nil_r, set_uploads_same. }
  intros Hrun. exists documents, kept. revert Hrun.
  unfold bind, NGO_create, new_Date, Activity_create, ret.
  rewrite !with_id_fresh
    by (by rewrite !lookup_insert_ne, lookup_empty by done).
  cbn [ngos facilities users activities outbox uploads next_id clock
       set_uploads set_ngos set_activities set_next_id].
  intros [= <- <-]. eexists _, _.
  do 2 (split; [done|]). split; [by destruct (req_files req)|].
  cbn [ngos facilities users activities outbox uploads next_id clock
       status json data new_ApiResponse].
  do 7 (split; [reflexivity|]).
  split; [by rewrite !get_insert_ne, !get_insert_eq by done|].
  repeat match goal with
  | |- _ ∧ _ => split
  | |- get _ _ = _ =>
      rewrite ?get_insert_ne by done; by rewrite ?get_insert_eq
  end.
  rewrite !get_insert_ne, get_insert_eq by done. cbn [opt_prop].
  by rewrite !get_insert_ne, !get_insert_eq by done.
Qed.



(** X12: with a name and an email that pass their checks, a
    registration whose password is absent, null, a string of white
    space only or a string of fewer than 8 code units is answered 400
    "Password must be at least 8 characters" and writes nothing. *)
Theorem weak_password_is_rejected_without_write
    (req : request) (w : world) (name email : jstring) :
  get (req_body req) "name" = VStr name → trim name ≠ [] →
  get (req_body req) "email" = VStr email → trim email ≠ [] →
  get (req_body req) "password" = VUndef
  ∨ get (req_body req) "password" = VNull
  ∨ (∃ password,
       get (req_body req) "password" = VStr password
       ∧ (trim password = [] ∨ (length password < 8)%nat)) →
  registerNGO req w
  = (inl (ApiError 400 "Password must be at least 8 characters"), w).
Proof.
  intros Hn Hname%truthy_trimmed He Hemail%truthy_trimmed Hweak.
  unfold registerNGO, registration_checks.
  rewrite Hn, He. cbn [opt_trim]. rewrite Hname, Hemail. cbn [negb].
  destruct Hweak as [->|[->|(password & -> & Hpw)]]; [done..|].
  cbn [opt_trim length_lt truthy].
  destruct Hpw as [->|Hlen]; [done|].
  rewrite (proj2 (Z.ltb_lt _ _)) by lia. by rewrite orb_true_r.
Qed.


(** X14: registration keeps emails and registration numbers distinct:
    when no two stored accounts share an email, none do after a
    registration that is answered, and the same for registration
    numbers. *)
Theorem registration_keeps_accounts_distinct
    (req : request) (w w' : world) (resp : response) (k : string) :
  k ∈ ["email"; "regNumber"] →
  distinct_on k (ngos w) →
  registerNGO req w = (inr resp, w') →
  distinct_on k (ngos w').
Proof.
  intros Hk Hdistinct Hrun. apply register_runs in Hrun
    as (documents & kept & ngo & activity & _ & Hfind & _ & -> & _ & _ & _
        & _ & _ & _ & _ & _ & _ & _ & _ & _ & Hemail & Hreg & _).
  assert (∀ d, d ∈ ngos w → strict_eq (get d k) (get ngo k) = false)
    as Hnew.
  { intros d Hd.
    pose proof (find_from_none_inv _ _ _ Hfind d Hd) as Hno.
    apply orb_false_elim in Hno as [Hno_email Hno_reg].
    repeat (apply elem_of_cons in Hk as [->|Hk]);
      [by rewrite Hemail|by rewrite Hreg|by apply elem_of_nil in Hk]. }
  intros i j d1 d2 Hi Hj Heq.
  destruct (decide (i < length (ngos w))%nat) as [Hi_old|Hi_new];
    destruct (decide (j < length (ngos w))%nat) as [Hj_old|Hj_new].
  - rewrite lookup_app_l in Hi, Hj by done. by eapply Hdistinct.
  - rewrite lookup_app_l in Hi by done.
    rewrite lookup_app_r in Hj by lia.
    apply list_lookup_singleton_Some in Hj as [_ <-].
    rewrite (Hnew d1) in Heq; [done|].
    apply list_elem_of_lookup. by exists i.
  - rewrite lookup_app_l in Hj by done.
    rewrite lookup_app_r in Hi by lia.
    apply list_lookup_singleton_Some in Hi as [_ <-].
    rewrite strict_eq_sym, (Hnew d2) in Heq; [done|].
    apply list_elem_of_lookup. by exists j.
  - rewrite lookup_app_r in Hi, Hj by lia.
    apply list_lookup_singleton_Some in Hi as [Hi _].
    apply list_lookup_singleton_Some in Hj as [Hj _]. lia.
Qed.
End Registration.

(** *** Sessions, passwords and profiles *)

Section Sessions.
Context {NM : NgoModel} {NS : NotificationService} {FS : FileStorage}
        {US : UpdateSemantics}.

(** A loaded account on which another path than the password is
    assigned is saved with its fields as they are. *)
Lemma NGO_save_assign_other
    (p : obj → bool) (l : list obj) (ngo : document)
    (k : string) (v : value) (w : world) :
  find_first p l = Some ngo → k ≠ "password" →
  NGO_save (assign k v ngo) w
  = (inr tt, set_ngos (<[slot ngo := <[k := v]> (fields ngo)]> (ngos w)) w).
Proof.
  intros Hfind Hk. rewrite NGO_save_unassigned; [done|].
  rewrite is_assigned_assign_ne by done.
  apply is_assigned_loaded. by eapply find_from_assigned.
Qed.

(** X16: a login that ends with an error, whatever the error, leaves
    the world as it was: no token is stored for a failed login. *)
Theorem failed_login_changes_nothing
    (req : request) (w w' : world) (e : js_error) :
  loginNGO req w = (inl e, w') → w' = w.
Proof.
  unfold loginNGO. destruct (_ || _); [by intros [= _ <-]|].
  unfold bind at 1, NGO_findOne.
  destruct (find_first (by_email _) _) as [ngo|]; [|by intros [= _ <-]].
  destruct (negb _); [by intros [= _ <-]|].
  rewrite reference_bound by reflexivity.
  unfold bind at 1, ret at 1.
  unfold bind at 1, generateTokens, bind at 1, NGO_findById, NGO_findOne.
  destruct (find_first (by_id _) _) as [loaded|]; [|by intros [= _ <-]].
  unfold bind, new_Date, NGO_save, ret. discriminate.
Qed.

(** X17: with an email and a password in the body, a login is answered
    404 when no stored account has the email, and 401 when the first
    account with the email rejects the password; the world is left as
    it was. *)
Theorem login_rejections (req : request) (w : world) :
  truthy (get (req_body req) "email") = true →
  truthy (get (req_body req) "password") = true →
  (find_first (by_email (get (req_body req) "email")) (ngos w) = None →
   loginNGO req w = (inl (ApiError 404 "NGO not found"), w))
  ∧ (∀ ngo,
       find_first (by_email (get (req_body req) "email")) (ngos w)
       = Some ngo →
       comparePassword (fields ngo) (get (req_body req) "password") = false →
       loginNGO req w = (inl (ApiError 401 "Invalid credentials"), w)).
Proof.
  intros Hemail Hpassword. unfold loginNGO.
  rewrite Hemail, Hpassword. cbn [negb orb].
  unfold bind, NGO_findOne. split.
  - by intros ->.
  - by intros ngo -> ->.
Qed.

(** X18: a login that is answered rewrites one account and nothing
    else: on that account the refresh token becomes the one of the
    answer and the last login the time of the clock, its other
    properties and all other accounts stay as they were. *)
Theorem login_rewrites_one_account
    (req : request) (w w' : world) (resp : response) :
  loginNGO req w = (inr resp, w') →
  ∃ (i : nat) (before after : obj),
    ngos w !! i = Some before
    ∧ ngos w' !! i = Some after
    ∧ get after "refreshToken" = VStr (generateRefreshToken before)
    ∧ opt_prop (data (json resp)) "refreshToken" = get after "refreshToken"
    ∧ get after "lastLogin" = VDate (clock w)
    ∧ (∀ k, k ∉ ["refreshToken"; "lastLogin"] →
            get after k = get before k)
    ∧ length (ngos w') = length (ngos w)
    ∧ (∀ j, j ≠ i → ngos w' !! j = ngos w !! j).
Proof.
  intros Hlogin. apply login_runs in Hlogin
    as (ngo & loaded & _ & Hloaded & Hsaved & Hdata).
  apply find_first_lookup in Hloaded as [Hslot _].
  apply lookup_lt_Some in Hslot as Hlt.
  exists (slot loaded), (fields loaded). eexists.
  split; [done|]. rewrite Hsaved.
  split; [by apply list_lookup_insert_eq|].
  split; [by rewrite get_insert_ne, get_insert_eq|].
  split.
  { rewrite Hdata. cbn [opt_prop].
    by rewrite get_insert_eq, get_insert_ne, get_insert_eq. }
  split; [by rewrite get_insert_eq|].
  split.
  { intros k Hk. repeat (apply not_elem_of_cons in Hk as [? Hk]).
    by rewrite !get_insert_ne. }
  split; [apply length_insert|].
  intros j Hj. by apply list_lookup_insert_ne.
Qed.

(** What a logout of a stored account does. *)
Lemma logout_runs (req : request) (w : world) (ngo : document) :
  find_first (by_id (get (req_ngo req) "_id")) (ngos w) = Some ngo →
  logoutNGO req w
  = (inr {| status := 200;
            json := new_ApiResponse 200 (VObj ∅) "Logout successful" |},
     (NGO_save (assign "refreshToken" VNull ngo) w).2).
Proof.
  intros Hfind. unfold logoutNGO, bind, NGO_findById, NGO_findOne.
  by rewrite Hfind.
Qed.

(** X19: a logout of a stored account answers 200 with empty data and
    sets the refresh token of that account to null; its other
    properties and all other accounts stay as they were. *)
Theorem logout_clears_the_refresh_token
    (req : request) (w : world) (ngo : document) :
  find_first (by_id (get (req_ngo req) "_id")) (ngos w) = Some ngo →
  ∃ resp w' after,
    logoutNGO req w = (inr resp, w')
    ∧ status resp = 200
    ∧ data (json resp) = VObj ∅
    ∧ ngos w' !! slot ngo = Some after
    ∧ get after "refreshToken" = VNull
    ∧ (∀ k, k ≠ "refreshToken" → get after k = get (fields ngo) k)
    ∧ (∀ j, j ≠ slot ngo → ngos w' !! j = ngos w !! j).
Proof.
  intros Hfind. rewrite (logout_runs req w ngo Hfind).
  rewrite (NGO_save_assign_other _ _ _ _ _ _ Hfind) by done.
  apply find_first_lookup in Hfind as [Hslot _].
  apply lookup_lt_Some in Hslot as Hlt.
  eexists _, _, _. split; [reflexivity|].
  cbn [status json data new_ApiResponse snd ngos set_ngos].
  do 2 (split; [done|]).
  split; [by apply list_lookup_insert_eq|].
  split; [by rewrite get_insert_eq|].
  split.
  - intros k Hk. by rewrite get_insert_ne.
  - intros j Hj. by apply list_lookup_insert_ne.
Qed.

(** X20: a logout that carries the account id of a login answer undoes
    the session of that login: the account that the login stored its
    refresh token on has a null refresh token afterwards. *)
Theorem logout_after_login
    (req req' : request) (w w1 : world) (resp : response) :
  loginNGO req w = (inr resp, w1) →
  get (req_ngo req') "_id"
    = opt_prop (opt_prop (data (json resp)) "ngo") "_id" →
  ∃ (i : nat) (logged_in logged_out : obj) (resp' : response) (w2 : world),
    ngos w1 !! i = Some logged_in
    ∧ get logged_in "refreshToken"
      = opt_prop (data (json resp)) "refreshToken"
    ∧ logoutNGO req' w1 = (inr resp', w2)
    ∧ ngos w2 !! i = Some logged_out
    ∧ get logged_out "refreshToken" = VNull.
Proof.
  intros Hlogin Hid. apply login_runs in Hlogin
    as (ngo & loaded & _ & Hloaded & Hsaved & Hdata).
  rewrite Hdata in Hid. cbn [opt_prop] in Hid.
  rewrite !get_insert_ne, get_insert_eq in Hid by done.
  cbn [opt_prop] in Hid.
  pose proof (find_first_lookup _ _ _ Hloaded) as [Hslot Hp].
  apply lookup_lt_Some in Hslot as Hlt.
  set (saved := <["lastLogin" := VDate (clock w)]>
         (<["refreshToken" := VStr (generateRefreshToken (fields loaded))]>
            (fields loaded))) in *.
  assert (by_id (get (fields ngo) "_id") saved = true) as Hp'.
  { revert Hp. unfold by_id, saved. by rewrite !get_insert_ne by done. }
  pose proof (find_first_insert_same _ _ _ _ Hloaded Hp') as Hfind.
  rewrite <- Hsaved, <- Hid in Hfind.
  exists (slot loaded), saved. eexists _, _, _.
  split; [by rewrite Hsaved; apply list_lookup_insert_eq|].
  split.
  { rewrite Hdata. cbn [opt_prop]. unfold saved.
    by rewrite get_insert_eq, get_insert_ne, get_insert_eq. }
  split; [by apply logout_runs|].
  rewrite (NGO_save_assign_other _ _ _ _ _ _ Hfind) by done.
  cbn [snd ngos set_ngos slot fields]. split.
  - apply list_lookup_insert_eq. by rewrite Hsaved, length_insert.
  - by rewrite get_insert_eq.
Qed.

(** X21: a change of password with a wrong old password is answered 401
    and leaves the world as it was. *)
Theorem wrong_old_password_changes_nothing
    (req : request) (w : world) (ngo : document) :
  truthy (get (req_body req) "oldPassword") = true →
  truthy (get (req_body req) "newPassword") = true →
  find_first (by_id (get (req_ngo req) "_id")) (ngos w) = Some ngo →
  comparePassword (fields ngo) (get (req_body req) "oldPassword") = false →
  changePassword req w = (inl (ApiError 401 "Old password is incorrect"), w).
Proof.
  intros Hold Hnew Hfind Hwrong. unfold changePassword.
  rewrite Hold, Hnew. cbn [negb orb].
  unfold bind, NGO_findById, NGO_findOne. by rewrite Hfind, Hwrong.
Qed.


(** X23: the profile of a stored account is answered without its
    password and refresh token and with every other property as it is
    stored; the world is left as it was. *)
Theorem profile_hides_password_and_token
    (req : request) (w : world) (ngo : document) :
  find_first (by_id (get (req_ngo req) "_id")) (ngos w) = Some ngo →
  ∃ resp profile,
    getNGOProfile req w = (inr resp, w)
    ∧ status resp = 200
    ∧ data (json resp) = VObj profile
    ∧ profile !! "password" = None
    ∧ profile !! "refreshToken" = None
    ∧ (∀ k, k ∉ ["password"; "refreshToken"] →
            profile !! k = fields ngo !! k).
Proof.
  intros Hfind. unfold getNGOProfile, bind, NGO_findById, NGO_findOne.
  rewrite Hfind. eexists _, _. split; [reflexivity|].
  cbn [status json data new_ApiResponse]. do 2 (split; [done|]).
  unfold deselect. split; [|split].
  - apply map_lookup_filter_None. right. intros v _ Hk. apply Hk.
    cbn. apply elem_of_cons. by left.
  - apply map_lookup_filter_None. right. intros v _ Hk. apply Hk.
    cbn. apply elem_of_cons. right. apply elem_of_cons. by left.
  - intros k Hk. destruct (fields ngo !! k) as [v|] eqn:E.
    + by apply map_lookup_filter_Some.
    + apply map_lookup_filter_None. by left.
Qed.

(** X24: a session whose account is not in the store is answered 404 by
    logout, profile, password change (with both passwords in the body)
    and resend, and none of them changes the world. *)
Theorem unknown_account_is_not_found
    (generateOtp : M value) (req : request) (w : world) :
  find_first (by_id (get (req_ngo req) "_id")) (ngos w) = None →
  logoutNGO req w = (inl (ApiError 404 "NGO not found"), w)
  ∧ getNGOProfile req w = (inl (ApiError 404 "NGO not found"), w)
  ∧ resendVerificationOtp generateOtp req w
    = (inl (ApiError 404 "NGO not found"), w)
  ∧ (truthy (get (req_body req) "oldPassword") = true →
     truthy (get (req_body req) "newPassword") = true →
     changePassword req w = (inl (ApiError 404 "NGO not found"), w)).
Proof.
  intros Hfind.
  unfold logoutNGO, getNGOProfile, resendVerificationOtp, changePassword,
    bind, NGO_findById, NGO_findOne.
  rewrite Hfind. do 3 (split; [done|]). intros -> ->.
  cbn [negb orb]. by rewrite Hfind.
Qed.


(** When no upload fails, the loop stores one file for each allowed
    name that has files, in the order of the allowed names. *)
Lemma upload_profile_documents_all
    (files : gmap string (list value)) (allowedDocs : list string)
    (updateFields : obj) (w : world) :
  (∀ k uploaded, k ∈ allowedDocs → files !! k = Some uploaded →
     ∃ reference,
       uploadFile (hd VUndef uploaded) ("ngo-documents/" +:+ k)
       = inr reference) →
  ∃ updated,
    upload_profile_documents files allowedDocs updateFields w
    = (inr updated,
       set_uploads (uploads w ++ omap (kept_upload files) allowedDocs) w).
Proof.
  revert updateFields w. induction allowedDocs as [|docType rest IH];
    intros updateFields w Hok.
  - exists updateFields. simpl. by rewrite app_nil_r, set_uploads_same.
  - assert (∀ k uploaded, k ∈ rest → files !! k = Some uploaded →
              ∃ reference,
                uploadFile (hd VUndef uploaded) ("ngo-documents/" +:+ k)
                = inr reference) as Hrest.
    { intros k uploaded Hk. apply Hok. by right. }
    simpl. unfold kept_upload at 1.
    destruct (files !! docType) as [uploaded|] eqn:Hfile.
    + destruct (Hok docType uploaded) as [reference Hup]; [by left|done|].
      unfold bind, uploadFile_call. rewrite Hup.
      match goal with
      | |- context [upload_profile_documents files rest ?d ?w1] =>
          destruct (IH d w1 Hrest) as [updated ->]
      end.
      exists updated. f_equal. unfold set_uploads. simpl.
      by rewrite <- app_assoc.
    + apply IH, Hrest.
Qed.


(** X27: a profile update with files by a session whose account is not
    in the store is answered 404 only after the uploads: when no upload
    fails, the file storage has gained the first file sent under each
    of registrationCert, licenseCert, taxExemptionCert and logo that
    has files, in that order, and nothing else has changed. *)
Theorem unknown_account_update_keeps_the_files
    (req : request) (w : world) (files : gmap string (list value)) :
  find_first (by_id (get (req_ngo req) "_id")) (ngos w) = None →
  req_files req = Some files →
  (∀ k uploaded,
     k ∈ ["registrationCert"; "licenseCert"; "taxExemptionCert"; "logo"] →
     files !! k = Some uploaded →
     ∃ reference,
       uploadFile (hd VUndef uploaded) ("ngo-documents/" +:+ k)
       = inr reference) →
  updateNGOProfile req w
  = (inl (ApiError 404 "NGO not found"),
     set_uploads
       (uploads w
        ++ omap (kept_upload files)
             ["registrationCert"; "licenseCert"; "taxExemptionCert"; "logo"])
       w).
Proof.
  intros Hfind Hfiles Hok. unfold updateNGOProfile. rewrite Hfiles.
  unfold bind at 1.
  destruct (upload_profile_documents_all files _ (req_body req) w Hok)
    as [updated ->].
  unfold bind, NGO_findByIdAndUpdate. cbn [ngos set_uploads].
  by rewrite Hfind.
Qed.
End Sessions.

(** *** The further properties on the sample store *)

Section MoreSampleRuns.
Import Sample.

#[local] Existing Instance flat_geo.
#[local] Existing Instance plain_model.
#[local] Existing Instance folder_storage.
#[local] Existing Instance reliable_service.
#[local] Existing Instance unique_store.


Lemma delete_empties_the_sample :
  ∃ resp w',
    manageFacility delete_request w0 = (inr resp, w')
    ∧ facilities w' = [].
Proof.
  destruct (delete_removes_the_record delete_request w0
              {| slot := 0; fields := city_center; assigned := [] |})
    as (resp & w' & Hrun & _ & _ & _ & Hgone & _); [reflexivity..|].
  by exists resp, w'.
Defined.

Lemma suspend_answers_suspendd :
  ∃ resp w',
    manageFacility suspend_request w0 = (inr resp, w')
    ∧ message (json resp) = "Facility suspendd successfully".
Proof.
  destruct (suspend_and_activate_set_the_status suspend_request w0
              {| slot := 0; fields := city_center; assigned := [] |})
    as (resp & w' & stored & Hrun & _ & Hmessage & _);
    [reflexivity|apply elem_of_cons; by left|reflexivity|].
  by exists resp, w'.
Defined.

Lemma owner_lists_own_facilities :
  ∃ resp,
    manageFacility list_request two_owners = (inr resp, two_owners)
    ∧ data (json resp) = VArr [VObj city_center; VObj north_camp].
Proof.
  destruct (list_answers_the_callers_facilities list_request two_owners)
    as (resp & Hrun & _ & Hdata); [reflexivity..|].
  exists resp. split; [exact Hrun|]. rewrite Hdata. reflexivity.
Defined.

Lemma camp_creation_keeps_the_center :
  city_center ∈ facilities (manageFacility camp_request w0).2.
Proof.
  apply (foreign_facilities_are_kept camp_request w0 city_center);
    [apply elem_of_cons; by left|reflexivity].
Defined.

Lemma camp_is_owned_by_its_creator :
  ∃ facility,
    facilities (manageFacility camp_request w0).2 = [city_center; facility]
    ∧ get facility "ngoId" = VId 1
    ∧ get facility "name" = VStr "Spring Camp".
Proof.
  destruct (create_sets_owner_and_location camp_request w0)
    as (facility & Hstored & Howner & _ & Hrest); [reflexivity..|].
  exists facility. split; [exact Hstored|]. split; [exact Howner|].
  rewrite Hrest; [reflexivity|].
  repeat (apply not_elem_of_cons; split; [discriminate|]).
  apply not_elem_of_nil.
Defined.

Lemma camp_creation_keeps_the_accounts :
  ngos (manageFacility camp_request w0).2 = ngos w0.
Proof. exact (proj1 (manageFacility_frame camp_request w0)). Defined.

Lemma center_is_active_after_suspend_and_activate :
  (λ d, get d "status")
    <$> facilities (manageFacility activate_request
                      (manageFacility suspend_request w0).2).2
  = [VStr "ACTIVE"].
Proof.
  rewrite (activate_after_suspend suspend_request activate_request w0
             {| slot := 0; fields := city_center; assigned := [] |}); reflexivity.
Defined.



Lemma short_password_is_rejected :
  registerNGO (registration "x@y.org" "R-9" "short") w0
  = (inl (ApiError 400 "Password must be at least 8 characters"), w0).
Proof.
  apply (weak_password_is_rejected_without_write
           (registration "x@y.org" "R-9" "short") w0
           (text_of "Second Chance") (text_of "x@y.org"));
    [reflexivity|by vm_compute|reflexivity|by vm_compute|].
  right; right. exists (text_of "short"). split; [reflexivity|].
  right. cbn. lia.
Defined.


Lemma third_registration_keeps_emails_distinct :
  ∃ resp w',
    registerNGO (registration "c@d.org" "R-9" "longenough2") w0
    = (inr resp, w')
    ∧ length (ngos w') = 3%nat
    ∧ distinct_on "email" (ngos w').
Proof.
  destruct (registerNGO (registration "c@d.org" "R-9" "longenough2") w0)
    as [[e|resp] w'] eqn:Hrun; [vm_compute in Hrun; discriminate|].
  exists resp, w'. split; [done|]. split.
  { vm_compute in Hrun. by injection Hrun as _ <-. }
  apply (registration_keeps_accounts_distinct
           (registration "c@d.org" "R-9" "longenough2") w0 w' resp "email").
  - apply elem_of_cons. by left.
  - intros i j d1 d2 Hi Hj Heq.
    destruct i as [|[|i]], j as [|[|j]]; try done;
      cbn in Hi, Hj; injection Hi as <-; injection Hj as <-;
      by vm_compute in Heq.
  - exact Hrun.
Defined.

Lemma wrong_login_changes_nothing :
  (loginNGO wrong_login_request w0).2 = w0.
Proof.
  destruct (loginNGO wrong_login_request w0)
    as [[e|resp] w'] eqn:Hrun; [|vm_compute in Hrun; discriminate].
  exact (failed_login_changes_nothing _ _ _ _ Hrun).
Defined.

Lemma wrong_login_is_unauthorized :
  loginNGO wrong_login_request w0
  = (inl (ApiError 401 "Invalid credentials"), w0).
Proof.
  apply (proj2 (login_rejections wrong_login_request w0 eq_refl eq_refl)
           {| slot := 0; fields := helping_hands; assigned := [] |}); reflexivity.
Defined.

Lemma sample_login_rewrites_one_account :
  ∃ resp w' i after,
    loginNGO login_request w0 = (inr resp, w')
    ∧ ngos w' !! i = Some after
    ∧ get after "lastLogin" = VDate 1000
    ∧ length (ngos w') = 2%nat.
Proof.
  destruct (loginNGO login_request w0)
    as [[e|resp] w'] eqn:Hrun; [vm_compute in Hrun; discriminate|].
  destruct (login_rewrites_one_account _ _ _ _ Hrun)
    as (i & before & after & _ & Hafter & _ & _ & Hlast & _ & Hlength & _).
  by exists resp, w', i, after.
Defined.

Lemma sample_logout_clears_the_token :
  ∃ resp w' after,
    logoutNGO logout_request w0 = (inr resp, w')
    ∧ ngos w' !! 0%nat = Some after
    ∧ get after "refreshToken" = VNull
    ∧ get after "password" = VStr "longenough1".
Proof.
  destruct (logout_clears_the_refresh_token logout_request w0
              {| slot := 0; fields := helping_hands; assigned := [] |})
    as (resp & w' & after & Hrun & _ & _ & Hafter & Hnull & Hkept & _);
    [reflexivity|].
  exists resp, w', after. do 3 (split; [done|]).
  by rewrite Hkept.
Defined.

Lemma sample_login_then_logout :
  ∃ resp w1 i logged_out resp' w2,
    loginNGO login_request w0 = (inr resp, w1)
    ∧ logoutNGO logout_request w1 = (inr resp', w2)
    ∧ ngos w2 !! i = Some logged_out
    ∧ get logged_out "refreshToken" = VNull.
Proof.
  destruct (loginNGO login_request w0)
    as [[e|resp] w1] eqn:Hlogin; [vm_compute in Hlogin; discriminate|].
  destruct (logout_after_login login_request logout_request w0 w1 resp Hlogin)
    as (i & logged_in & logged_out & resp' & w2 & _ & _ & Hlogout & Hout
        & Hnull).
  { vm_compute in Hlogin. by injection Hlogin as <- _. }
  by exists resp, w1, i, logged_out, resp', w2.
Defined.

Lemma wrong_old_password_is_unauthorized :
  changePassword (change_password_request "guess" "newpassword1") w0
  = (inl (ApiError 401 "Old password is incorrect"), w0).
Proof.
  apply (wrong_old_password_changes_nothing
           (change_password_request "guess" "newpassword1") w0
           {| slot := 0; fields := helping_hands; assigned := [] |}); reflexivity.
Defined.


Lemma sample_profile_has_no_password :
  ∃ resp profile,
    getNGOProfile logout_request w0 = (inr resp, w0)
    ∧ data (json resp) = VObj profile
    ∧ profile !! "password" = None
    ∧ profile !! "email" = Some (VStr "a@b.org").
Proof.
  destruct (profile_hides_password_and_token logout_request w0
              {| slot := 0; fields := helping_hands; assigned := [] |})
    as (resp & profile & Hrun & _ & Hdata & Hpassword & _ & Hkept);
    [reflexivity|].
  exists resp, profile. do 3 (split; [done|]).
  rewrite Hkept; [reflexivity|].
  repeat (apply not_elem_of_cons; split; [discriminate|]).
  apply not_elem_of_nil.
Defined.

Lemma ghost_session_is_not_found :
  logoutNGO ghost_request w0 = (inl (ApiError 404 "NGO not found"), w0)
  ∧ changePassword ghost_request w0
    = (inl (ApiError 404 "NGO not found"), w0).
Proof.
  destruct (unknown_account_is_not_found otp_source ghost_request w0)
    as (Hlogout & _ & _ & Hchange); [reflexivity|].
  split; [exact Hlogout|]. apply Hchange; reflexivity.
Defined.


Lemma ghost_update_keeps_the_files :
  ∃ w',
    updateNGOProfile ghost_files_request w0
    = (inl (ApiError 404 "NGO not found"), w')
    ∧ ngos w' = ngos w0
    ∧ upload_file <$> uploads w' = [VStr "file-1"; VStr "file-3"].
Proof.
  eexists. split.
  - apply (unknown_account_update_keeps_the_files ghost_files_request w0
             (<["licenseCert" := [VStr "file-1"]]>
             (<["logo" := [VStr "file-3"]]>
             (<["passport" := [VStr "file-2"]]> ∅))));
      [reflexivity..|].
    intros k uploaded _ _. by eexists.
  - split; reflexivity.
Defined.
End MoreSampleRuns.
